(** * auth-gateway: the Accounts module (client handlers, body parsing, routes)

    A shallow embedding of
      - the client request handlers [getClientsForOrgHandler],
        [postClientHandler], [createClient] and [addRoles];
      - the test double [mockCache];
      - [getParseBodyFunc] and the route table built by [register].

    Calls that leave the module (the [io] data layer, the authorization
    helper, the random source, bcrypt, the logger) are the nodes of a
    small free monad; an environment answers them, successfully or with a
    thrown error, and every answered call is appended to a trace. *)

From stdpp Require Import base option list strings gmap.
From Stdlib Require Import ZArith Lia Strings.Byte.
From Stdlib Require Import Ascii.

#[local] Set Warnings "-register-all".
#[local] Open Scope string_scope.
#[local] Open Scope Z_scope.

(** ** JavaScript values carried by request bodies *)

Module JS.

(** The value a body parser leaves in [req.body]. Numbers are never
    inspected by the code below beyond their type, so they carry an
    integer payload. Object properties keep their insertion order. *)
Inductive Value : Type :=
| Undefined
| Null
| Bool (b : bool)
| Num (n : Z)
| Str (s : string)
| Arr (items : list Value)
| Obj (props : list (string * Value)).

(** [o[k]] on an own-property list. *)
Fixpoint lookup (k : string) (props : list (string * Value)) : option Value :=
  match props with
  | [] => None
  | (k', v) :: rest => if String.eqb k k' then Some v else lookup k rest
  end.

(** Property read [v.k]; anything that is not an object with that own
    property yields [undefined]. *)
Definition prop (v : Value) (k : string) : Value :=
  match v with
  | Obj props => default Undefined (lookup k props)
  | _ => Undefined
  end.

(** [!v] *)
Definition falsy (v : Value) : bool :=
  match v with
  | Undefined | Null => true
  | Bool b => negb b
  | Num n => Z.eqb n 0
  | Str s => String.eqb s ""
  | Arr _ | Obj _ => false
  end.

(** [Object.keys(v).length] for a value that is neither [null] nor
    [undefined]: primitives other than strings have no own enumerable
    keys, a string has one per character, an array one per item. *)
Definition keysLength (v : Value) : nat :=
  match v with
  | Undefined | Null | Bool _ | Num _ => 0%nat
  | Str s => String.length s
  | Arr items => List.length items
  | Obj props => List.length props
  end.

(** [!s] for an optional string (a route parameter or a header). *)
Definition falsyStr (s : option string) : bool :=
  match s with
  | None => true
  | Some s => String.eqb s ""
  end.

(** [String.prototype.toLowerCase] on one code unit of a Latin-1 string:
    A-Z, and the accented capitals 0xC0-0xDE except the multiplication
    sign 0xD7. *)
Definition lowerChar (c : ascii) : ascii :=
  let n := N_of_ascii c in
  if ((65 <=? n) && (n <=? 90))%N then ascii_of_N (n + 32)
  else if ((192 <=? n) && (n <=? 222) && negb (n =? 215))%N then ascii_of_N (n + 32)
  else c.

Fixpoint toLowerCase (s : string) : string :=
  match s with
  | EmptyString => EmptyString
  | String c rest => String (lowerChar c) (toLowerCase rest)
  end.

Definition hexDigit (n : N) : ascii :=
  match n with
  | 0 => "0" | 1 => "1" | 2 => "2" | 3 => "3" | 4 => "4" | 5 => "5"
  | 6 => "6" | 7 => "7" | 8 => "8" | 9 => "9" | 10 => "a" | 11 => "b"
  | 12 => "c" | 13 => "d" | 14 => "e" | _ => "f"
  end%N%char.

(** [Buffer.prototype.toString("hex")] *)
Fixpoint toHex (bytes : list byte) : string :=
  match bytes with
  | [] => EmptyString
  | b :: rest =>
      let n := Byte.to_N b in
      String (hexDigit (n / 16)) (String (hexDigit (n mod 16)) (toHex rest))
  end.

End JS.

(** ** Errors of [@wymp/http-errors] *)

Module E.

Inductive Name : Type :=
| BadRequest
| Unauthorized
| Forbidden
| NotFound
| UnsupportedMediaType
| TooManyRequests
| InternalServerError
| BadGateway.

(** [new E.Name(message, subcode?)] *)
Record HttpError : Type := mk {
  name : Name;
  message : string;
  subcode : option string;
}.

End E.

(** ** Records of the data layer and of the API

    The declarations live in [@wymp/types] and in [Types]; they are
    modelled below from the data model of the specification. *)

(** Modelled from the spec: the enumeration [ClientRoles] of [Types],
    "a fixed role set assigned at creation (e.g., external/internal/
    trusted)". *)
Inductive ClientRoles : Type := EXTERNAL | INTERNAL | TRUSTED.

Module Auth.

(** Modelled from the spec: [Auth.ReqInfo], the identity envelope
    "{clientId, clientRoles[], userId?, userRoles[]}". *)
Record ReqInfo : Type := {
  clientId : string;
  clientRoles : list ClientRoles;
  userId : option string;
  userRoles : list string;
}.

End Auth.

Module Db.

Module Organization.
Record t : Type := { id : string; name : string }.
End Organization.

Module Client.
(** Modelled from the spec: [Auth.Db.Client], "id, organizationId, name,
    secret (hashed, never stored raw), rate-limit budget (requests/sec)";
    the hashed secret is the column [secretBcrypt] that [createClient]
    writes. *)
Record t : Type := {
  id : string;
  organizationId : string;
  name : string;
  secretBcrypt : string;
  reqsPerSec : Z;
}.
End Client.

Module ClientRole.
Record t : Type := { clientId : string; roleId : ClientRoles }.
End ClientRole.

End Db.

Module Api.

Module Client.
(** Modelled from the spec: [Auth.Api.Client], the client as the API
    shows it, "id, organizationId, name, rate-limit budget, set of
    ClientRoles", without the secret. *)
Record t : Type := {
  id : string;
  organizationId : string;
  name : string;
  reqsPerSec : Z;
  roles : list ClientRoles;
}.

(** [client.roles = rs] *)
Definition setRoles (c : t) (rs : list ClientRoles) : t :=
  {| id := id c; organizationId := organizationId c; name := name c;
     reqsPerSec := reqsPerSec c; roles := rs |}.
End Client.

End Api.

(** A collection answer of [io.get] with a filter: the rows under [data],
    and whatever else the answer carries (paging and the like) under
    [rest]. *)
Record Collection (A : Type) : Type := {
  data : list A;
  rest : list (string * JS.Value);
}.
Arguments data {A} _.
Arguments rest {A} _.

(** Payloads handed to [io.save]. *)
Module Payload.

Record Client : Type := {
  organizationId : string;
  name : string;
  secretBcrypt : string;
  reqsPerSec : Z;
}.

Record ClientRole : Type := { clientId : string; roleId : ClientRoles }.

End Payload.

(** ** Calls that leave the module *)

Inductive Call : Type :=
| LogDebug (msg : string)
| RandomBytes (n : Z)
| BcryptHash (s : string) (rounds : Z)
| IoGetOrganization (id : string)
| IoGetClient (id : string)
| IoGetClientsByOrg (organizationId : string)
| IoGetClientRoles (clientIdIn : list string)
| IoSaveClient (p : Payload.Client) (auth : Auth.ReqInfo)
| IoSaveClientRole (p : Payload.ClientRole) (auth : Auth.ReqInfo)
| AuthorizeCallerForRole (organizationId : string) (auth : Auth.ReqInfo)
    (level : string).

Definition Reply (c : Call) : Type :=
  match c with
  | LogDebug _ => unit
  | RandomBytes _ => list byte
  | BcryptHash _ _ => string
  | IoGetOrganization _ => Db.Organization.t
  | IoGetClient _ => Db.Client.t
  | IoGetClientsByOrg _ => Collection Db.Client.t
  | IoGetClientRoles _ => Collection Db.ClientRole.t
  | IoSaveClient _ _ => Db.Client.t
  | IoSaveClientRole _ _ => Db.ClientRole.t
  | AuthorizeCallerForRole _ _ _ => unit
  end.

(** An asynchronous computation: it returns, throws, or awaits a call. *)
Inductive Prog (R : Type) : Type :=
| Ret (r : R)
| Throw (e : E.HttpError)
| Await (c : Call) (k : Reply c -> Prog R).
Arguments Ret {R} _.
Arguments Throw {R} _.
Arguments Await {R} _ _.

Fixpoint bind {A B : Type} (p : Prog A) (f : A -> Prog B) : Prog B :=
  match p with
  | Ret a => f a
  | Throw e => Throw e
  | Await c k => Await c (fun x => bind (k x) f)
  end.

Definition await (c : Call) : Prog (Reply c) := Await c Ret.

#[export] Instance Prog_ret : MRet Prog := @Ret.
#[export] Instance Prog_bind : MBind Prog := fun A B f p => bind p f.

(** The environment: how the outside answers a call in a given world. *)
Definition Env (W : Type) : Type :=
  forall c : Call, W -> (E.HttpError + Reply c) * W.

(** One answered call. *)
Record Entry : Type := answered {
  call : Call;
  result : E.HttpError + Reply call;
}.

Record Run (W R : Type) : Type := {
  outcome : E.HttpError + R;
  world : W;
  trace : list Entry;
}.
Arguments outcome {W R} _.
Arguments world {W R} _.
Arguments trace {W R} _.

Fixpoint run {W R : Type} (env : Env W) (p : Prog R) (w : W) : Run W R :=
  match p with
  | Ret r => {| outcome := inr r; world := w; trace := [] |}
  | Throw e => {| outcome := inl e; world := w; trace := [] |}
  | Await c k =>
      match env c w with
      | (inl e, w') =>
          {| outcome := inl e; world := w'; trace := [answered c (inl e)] |}
      | (inr x, w') =>
          let r := run env (k x) w' in
          {| outcome := outcome r; world := world r;
             trace := answered c (inr x) :: trace r |}
      end
  end.

(** ** Requests and responses *)

Module Http.

(** An incoming request as the middleware sees it. Header names are
    stored in lower case, as Node does. *)
Record Request : Type := {
  method : string;
  path : string;
  headers : gmap string string;
  params : gmap string string;
  body : JS.Value;
  auth : option Auth.ReqInfo;
}.

(** [req.get(name)]: header lookup, case-insensitive in the name. *)
Definition get (req : Request) (header : string) : option string :=
  headers req !! JS.toLowerCase header.

(** What the client handlers send. *)
Inductive Body : Type :=
| Single (c : Api.Client.t)
| SingleWithSecret (c : Api.Client.t) (secret : string)
| Many (rest : list (string * JS.Value)) (cs : list Api.Client.t).

(** [res.status(status).send(sent)] *)
Record Response : Type := { status : Z; sent : Body }.

End Http.

(** ** Helpers imported by the client handlers

    [Http.assertAuthdReq] throws unless the request carries an [auth]
    object; the error it throws, and the three functions, come from
    modules outside this one. *)
Record Imports : Type := {
  notAuthd : E.HttpError;
  assertAuth : Auth.ReqInfo -> option E.HttpError;
  InvalidBodyError : JS.Value -> E.HttpError;
  dbToApi : Db.Client.t -> Api.Client.t;
}.

Definition assertAuthdReq (L : Imports) (req : Http.Request) : Prog Auth.ReqInfo :=
  match Http.auth req with
  | Some auth => Ret auth
  | None => Throw (notAuthd L)
  end.

(** [rt.Record({ data: rt.Record({ type: rt.Literal("clients"), name:
    rt.String }) })]: on success, the validated name. *)
Definition PostClientValidator (body : JS.Value) : option string :=
  let data := JS.prop body "data" in
  match JS.prop data "type", JS.prop data "name" with
  | JS.Str t, JS.Str name => if String.eqb t "clients" then Some name else None
  | _, _ => None
  end.

Definition badParams : E.HttpError :=
  E.mk E.InternalServerError
    ("Programmer: This endpoint is not set up correctly. Expecting 'orgId' url parameter, "
       ++ "but it was missing.")
    (Some "GET-CLIENTS-BAD-PARAMS").

Definition clientNotFound : E.HttpError :=
  E.mk E.NotFound
    "The client id you've requested was not found in our system."
    (Some "GET-CLIENT_CLIENT-NOT-FOUND").

(** ** [addRoles] *)

(** The argument of [addRoles] is one client or an array of clients; the
    two overloads share one body that branches on [Array.isArray]. *)
Definition ClientOrClients (isArray : bool) : Type :=
  if isArray then list Api.Client.t else Api.Client.t.

(** [add] assigns [client.roles] in place and returns the same object;
    the value it returns is what is modelled. *)
Definition add (roles : Collection Db.ClientRole.t) (client : Api.Client.t)
  : Api.Client.t :=
  Api.Client.setRoles client
    (Db.ClientRole.roleId <$>
       filter (fun row => Db.ClientRole.clientId row = Api.Client.id client)
         (data roles)).

Definition addRoles (isArray : bool)
  : ClientOrClients isArray -> Prog (ClientOrClients isArray) :=
  match isArray with
  | true => fun clients =>
      let clientIds := Api.Client.id <$> clients in
      roles ← await (IoGetClientRoles clientIds);
      mret (add roles <$> clients)
  | false => fun client =>
      let clientIds := [Api.Client.id client] in
      roles ← await (IoGetClientRoles clientIds);
      mret (add roles client)
  end.

(** ** [createClient] *)

Record NewClient : Type := { organizationId : string; name : string }.

(** [Auth.Db.Client & { secret: string }] *)
Record CreatedClient : Type := { client : Db.Client.t; secret : string }.

Definition createClient (newClient : NewClient) (auth : Auth.ReqInfo)
  : Prog CreatedClient :=
  _ ← await (LogDebug "Generating client secret");
  bytes ← await (RandomBytes 32);
  let secret := JS.toHex bytes in
  secretBcrypt ← await (BcryptHash secret 10);
  client ← await (IoSaveClient
                    {| Payload.organizationId := organizationId newClient;
                       Payload.name := name newClient;
                       Payload.secretBcrypt := secretBcrypt;
                       Payload.reqsPerSec := 10 |}
                    auth);
  _ ← await (IoSaveClientRole
               {| Payload.clientId := Db.Client.id client;
                  Payload.roleId := EXTERNAL |}
               auth);
  mret {| client := client; secret := secret |}.

(** ** Request handlers

    Each handler body runs inside [try { ... } catch (e) { next(e) }]: a
    thrown error is the [inl] outcome of the run and is what [next]
    receives; a returned response is what was sent. *)

(** GET /organizations/:orgId/clients and
    GET /organizations/:orgId/clients/:id *)
Definition getClientsForOrgHandler (L : Imports) (req : Http.Request)
  : Prog Http.Response :=
  auth ← assertAuthdReq L req;
  match assertAuth L auth with
  | Some e => Throw e
  | None =>
      if JS.falsyStr (Http.params req !! "orgId") then Throw badParams
      else
        let organizationId := default "" (Http.params req !! "orgId") in
        _ ← await (IoGetOrganization organizationId);
        _ ← await (AuthorizeCallerForRole organizationId auth "read");
        if negb (JS.falsyStr (Http.params req !! "id")) then
          let clientId := default "" (Http.params req !! "id") in
          client ← await (IoGetClient clientId);
          if negb (String.eqb (Db.Client.organizationId client) organizationId)
          then Throw clientNotFound
          else
            data ← addRoles false (dbToApi L client);
            mret {| Http.status := 200; Http.sent := Http.Single data |}
        else
          clients ← await (IoGetClientsByOrg organizationId);
          data ← addRoles true (dbToApi L <$> data clients);
          mret {| Http.status := 200;
                  Http.sent := Http.Many (rest clients) data |}
  end.

(** POST /organizations/:id/clients *)
Definition postClientHandler (L : Imports) (req : Http.Request)
  : Prog Http.Response :=
  auth ← assertAuthdReq L req;
  match assertAuth L auth with
  | Some e => Throw e
  | None =>
      if JS.falsyStr (Http.params req !! "orgId") then Throw badParams
      else
        let organizationId := default "" (Http.params req !! "orgId") in
        match PostClientValidator (Http.body req) with
        | None => Throw (InvalidBodyError L (Http.body req))
        | Some clientName =>
            _ ← await (IoGetOrganization organizationId);
            _ ← await (AuthorizeCallerForRole organizationId auth "manage");
            created ← createClient
                        {| organizationId := organizationId; name := clientName |}
                        auth;
            finishedClient ← addRoles false (dbToApi L (client created));
            mret {| Http.status := 201;
                    Http.sent := Http.SingleWithSecret finishedClient
                                   (secret created) |}
        end
  end.

(** ** [mockCache]

    A computation handed to the cache is a thunk [v]; calling it acts on
    some state and yields its result, a value or a promise. *)

Module Mocks.

Definition Thunk (S T : Type) : Type := unit -> S -> T * S.

(** [get(k, v, ttl?, log?) { return v(); }] *)
Definition get {S T : Type} (k : string) (v : Thunk S T) (ttl : option Z)
  : S -> T * S :=
  v tt.

(** [clear(k?) {}] *)
Definition clear {S : Type} (k : option string) : S -> unit * S :=
  fun s => (tt, s).

(** A promise that has not settled yet, named by the invocation that
    made it. *)
Inductive Promise : Type := Pending (invocation : nat).

(** A computation that counts its invocations and hands back a promise
    still in flight. *)
Definition slowCompute : Thunk nat Promise :=
  fun _ invocations => (Pending invocations, S invocations).

(** Two requests for [k] issued back to back, the second while the
    promise of the first is still in flight. *)
Definition twoRequests {S T : Type}
  (cacheGet : string -> Thunk S T -> option Z -> S -> T * S)
  (k : string) (v : Thunk S T) (s : S) : T * T * S :=
  let '(first, s1) := cacheGet k v None s in
  let '(second, s2) := cacheGet k v None s1 in
  (first, second, s2).

(** What coalescing asks of a cache: the second of two such requests
    shares the result in flight and the computation is invoked once. *)
Definition coalesces
  (cacheGet : string -> Thunk nat Promise -> option Z -> nat -> Promise * nat)
  : Prop :=
  forall k n,
    twoRequests cacheGet k slowCompute n = (Pending n, Pending n, S n).

End Mocks.

(** ** The Accounts module: body parsing and routes *)

Module Accounts.

(** What a middleware does with a request: [next()], [next(e)], or a
    response. *)
Inductive Step : Type :=
| Next
| NextErr (e : E.HttpError)
| Sent (status : Z) (body : JS.Value).

Definition withBody (req : Http.Request) (b : JS.Value) : Http.Request :=
  {| Http.method := Http.method req; Http.path := Http.path req;
     Http.headers := Http.headers req; Http.params := Http.params req;
     Http.body := b; Http.auth := Http.auth req |}.

(** [Parsers.json()]: the parser calls back with an error, or without
    one having left a value in [req.body]. *)
Definition JsonParser : Type := Http.Request -> E.HttpError + JS.Value.

Definition unsupportedMediaType (contentType : option string) : E.HttpError :=
  E.mk E.UnsupportedMediaType
    ("Your request must have a 'Content-Type' header with value 'application/json'."
       ++ (if JS.falsyStr contentType
           then "You did not pass a content-type header."
           else " You passed '" ++ default "" contentType ++ "'."))
    None.

Definition blankBody (contentType : option string) : E.HttpError :=
  E.mk E.BadRequest
    ("The body of your request is blank or does not appear to have been parsed correctly. "
       ++ "Please be sure to pass a content-type header with the value 'application/json'. "
       ++ (if JS.falsyStr contentType
           then "You did not pass a content-type header."
           else "You passed 'Content-Type: " ++ default "" contentType ++ "'."))
    None.

(** [!req.body || Object.keys(req.body).length === 0] *)
Definition isBlank (b : JS.Value) : bool :=
  JS.falsy b || Nat.eqb (JS.keysLength b) 0.

(** The middleware's decision and the request as it leaves it. *)
Definition getParseBodyFunc (json : JsonParser) (allowBlankBodies : bool)
  (req : Http.Request) : Step * Http.Request :=
  let contentType := Http.get req "content-type" in
  if JS.falsyStr contentType
     || negb (String.eqb (JS.toLowerCase (default "" contentType))
                "application/json")
  then (NextErr (unsupportedMediaType contentType), req)
  else
    match json req with
    | inl e => (NextErr e, req)
    | inr b =>
        if negb allowBlankBodies && isBlank b
        then (NextErr (blankBody contentType), withBody req b)
        else (Next, withBody req b)
    end.

Definition parseBody (json : JsonParser) := getParseBodyFunc json false.
Definition parseBodyAllowBlank (json : JsonParser) := getParseBodyFunc json true.

(** The route handlers of the sibling files, by name. *)
Inductive HandlerId : Type :=
| Organizations_getOrganizations
| Organizations_postOrganizations
| Organizations_patchOrganization
| Organizations_deleteOrganizationHandler
| Users_getUsers
| Users_getUserById
| Users_postUsers
| Users_patchUsers
| Users_postChangePasswordHandler
| Users_deleteUsers
| OrgMemberships_getByUserIdHandler
| OrgMemberships_getByOrganizationIdHandler
| OrgMemberships_postOrgMembershipHandler
| OrgMemberships_patchOrgMembershipHandler
| OrgMemberships_deleteOrgMembershipHandler
| Sessions_handleGetAllSessions
| Sessions_handleGetUserSessions
| Sessions_handlePostSessionsLoginEmail
| Sessions_handlePostSessionsLoginPassword
| Sessions_handlePostSessionsLoginCode
| Sessions_handlePostSessionsLoginTotp
| Sessions_handlePostSessionsRefresh
| Sessions_handlePostSessionsLogout.

(** How each of them treats a request; they leave the request as it is. *)
Definition Handlers : Type := HandlerId -> Http.Request -> Step.

Inductive Middleware : Type :=
| ParseBody
| ParseBodyAllowBlank
| Handle (h : HandlerId)
| UnknownEndpoint.

Inductive Verb : Type := GET | POST | PATCH | DELETE | ALL.

Record Route : Type := {
  verb : Verb;
  paths : list string;
  chain : list Middleware;
}.

Definition unknownEndpoint (req : Http.Request) : E.HttpError :=
  E.mk E.BadRequest
    ("Unknown Endpoint: " ++ Http.method req ++ " " ++ Http.path req)
    (Some "ACCOUNTS-UNKNOWN-ENDPOINT").

Definition middleware (hs : Handlers) (json : JsonParser) (m : Middleware)
  (req : Http.Request) : Step * Http.Request :=
  match m with
  | ParseBody => parseBody json req
  | ParseBodyAllowBlank => parseBodyAllowBlank json req
  | Handle h => (hs h req, req)
  | UnknownEndpoint => (NextErr (unknownEndpoint req), req)
  end.

Definition ranHandler (m : Middleware) : list HandlerId :=
  match m with
  | Handle h => [h]
  | _ => []
  end.

(** A route's middleware in order: each runs only if the one before it
    called [next()]. The second component lists the handlers that ran. *)
Fixpoint runChain (hs : Handlers) (json : JsonParser) (ms : list Middleware)
  (req : Http.Request) : Step * Http.Request * list HandlerId :=
  match ms with
  | [] => (Next, req, [])
  | m :: rest =>
      match middleware hs json m req with
      | (Next, req') =>
          let '(s, req'', ran) := runChain hs json rest req' in
          (s, req'', (ranHandler m ++ ran)%list)
      | (s, req') => (s, req', ranHandler m)
      end
  end.

(** The routes in the order [register] adds them. *)
Definition endpoints : list Route := [
  {| verb := GET;
     paths := ["/accounts/v1/organizations"; "/accounts/v1/organizations/:id"];
     chain := [Handle Organizations_getOrganizations] |};
  {| verb := POST; paths := ["/accounts/v1/organizations"];
     chain := [ParseBody; Handle Organizations_postOrganizations] |};
  {| verb := PATCH; paths := ["/accounts/v1/organizations/:id"];
     chain := [ParseBody; Handle Organizations_patchOrganization] |};
  {| verb := DELETE; paths := ["/accounts/v1/organizations/:id"];
     chain := [Handle Organizations_deleteOrganizationHandler] |};
  {| verb := GET; paths := ["/accounts/v1/users"];
     chain := [Handle Users_getUsers] |};
  {| verb := GET; paths := ["/accounts/v1/users/:id"];
     chain := [Handle Users_getUserById] |};
  {| verb := POST; paths := ["/accounts/v1/users"];
     chain := [ParseBody; Handle Users_postUsers] |};
  {| verb := PATCH; paths := ["/accounts/v1/users/:id"];
     chain := [ParseBody; Handle Users_patchUsers] |};
  {| verb := POST; paths := ["/accounts/v1/users/:id/change-password"];
     chain := [ParseBody; Handle Users_postChangePasswordHandler] |};
  {| verb := DELETE; paths := ["/accounts/v1/users/:id"];
     chain := [Handle Users_deleteUsers] |};
  {| verb := GET; paths := ["/accounts/v1/users/:id/memberships"];
     chain := [Handle OrgMemberships_getByUserIdHandler] |};
  {| verb := GET; paths := ["/accounts/v1/organizations/:id/memberships"];
     chain := [Handle OrgMemberships_getByOrganizationIdHandler] |};
  {| verb := POST; paths := ["/accounts/v1/organizations/:id/memberships"];
     chain := [ParseBody; Handle OrgMemberships_postOrgMembershipHandler] |};
  {| verb := PATCH; paths := ["/accounts/v1/org-memberships/:id"];
     chain := [Handle OrgMemberships_patchOrgMembershipHandler] |};
  {| verb := DELETE; paths := ["/accounts/v1/org-memberships/:id"];
     chain := [Handle OrgMemberships_deleteOrgMembershipHandler] |};
  {| verb := GET; paths := ["/accounts/v1/sessions"];
     chain := [Handle Sessions_handleGetAllSessions] |};
  {| verb := GET; paths := ["/accounts/v1/users/:id/sessions"];
     chain := [Handle Sessions_handleGetUserSessions] |};
  {| verb := POST; paths := ["/accounts/v1/sessions/login/email"];
     chain := [ParseBody; Handle Sessions_handlePostSessionsLoginEmail] |};
  {| verb := POST; paths := ["/accounts/v1/sessions/login/password"];
     chain := [ParseBody; Handle Sessions_handlePostSessionsLoginPassword] |};
  {| verb := POST; paths := ["/accounts/v1/sessions/login/code"];
     chain := [ParseBody; Handle Sessions_handlePostSessionsLoginCode] |};
  {| verb := POST; paths := ["/accounts/v1/sessions/login/totp"];
     chain := [ParseBody; Handle Sessions_handlePostSessionsLoginTotp] |};
  {| verb := POST; paths := ["/accounts/v1/sessions/refresh"];
     chain := [ParseBody; Handle Sessions_handlePostSessionsRefresh] |};
  {| verb := POST; paths := ["/accounts/v1/sessions/logout"];
     chain := [ParseBodyAllowBlank; Handle Sessions_handlePostSessionsLogout] |}
].

(** Catch-all for unhandled accounts endpoints. *)
Definition fallthrough : Route :=
  {| verb := ALL; paths := ["/accounts/v1/*"]; chain := [UnknownEndpoint] |}.

Definition register : list Route := endpoints ++ [fallthrough].

End Accounts.

(** ** Routing

    [r.http] dispatches as an Express application with default settings
    does: routes are tried in the order they were added; a route takes a
    request when verb and path match; literal segments compare without
    regard to case, a [:name] segment takes one non-empty segment, a
    final [*] takes whatever follows the slash before it, and one trailing
    slash is tolerated. *)

Module Router.

Import Accounts.

Fixpoint segments (s : string) : list string :=
  match s with
  | EmptyString => [""]
  | String c rest =>
      if Ascii.eqb c "/" then "" :: segments rest
      else match segments rest with
           | seg :: segs => String c seg :: segs
           | [] => [String c ""]
           end
  end.

Definition isParam (seg : string) : bool :=
  match seg with
  | String c _ => Ascii.eqb c ":"
  | EmptyString => false
  end.

Fixpoint matchSegments (pattern path : list string) : bool :=
  match pattern with
  | [] =>
      match path with
      | [] => true
      | [last] => String.eqb last ""
      | _ => false
      end
  | p :: ps =>
      if String.eqb p "*" && bool_decide (ps = []) then
        match path with
        | [] => false
        | _ :: _ => true
        end
      else
        match path with
        | [] => false
        | seg :: segs =>
            (if isParam p then negb (String.eqb seg "")
             else String.eqb (JS.toLowerCase p) (JS.toLowerCase seg))
            && matchSegments ps segs
        end
  end.

Definition matchPath (pattern path : string) : bool :=
  matchSegments (segments pattern) (segments path).

Definition verbMatches (v : Verb) (method : string) : bool :=
  match v with
  | ALL => true
  | GET => String.eqb method "GET" || String.eqb method "HEAD"
  | POST => String.eqb method "POST"
  | PATCH => String.eqb method "PATCH"
  | DELETE => String.eqb method "DELETE"
  end.

Definition routeMatches (r : Route) (req : Http.Request) : bool :=
  verbMatches (verb r) (Http.method req)
  && existsb (fun pattern => matchPath pattern (Http.path req)) (paths r).

(** How a request leaves the routes of the module: answered, failed with
    an error for the error handler, or untouched and left to whatever is
    mounted after the module (the dispatcher to downstream services). *)
Inductive Final : Type :=
| Responded (status : Z) (body : JS.Value)
| Failed (e : E.HttpError)
| PassedOn (req : Http.Request).

Fixpoint dispatch (hs : Handlers) (json : JsonParser) (routes : list Route)
  (req : Http.Request) : Final * list HandlerId :=
  match routes with
  | [] => (PassedOn req, [])
  | r :: rest =>
      if routeMatches r req then
        match runChain hs json (chain r) req with
        | (Next, req', ran) =>
            let '(final, ran') := dispatch hs json rest req' in
            (final, (ran ++ ran')%list)
        | (NextErr e, _, ran) => (Failed e, ran)
        | (Sent status body, _, ran) => (Responded status body, ran)
        end
      else dispatch hs json rest req
  end.

(** A path lies under the module's prefix. *)
Definition underAccounts (path : string) : bool :=
  matchPath "/accounts/v1/*" path.

End Router.

(** ** A small world to run the handlers in

    An in-memory data layer with a permission table, used to exercise the
    definitions above on concrete requests. *)

Module Sample.

Record Store : Type := {
  organizations : list Db.Organization.t;
  clients : list Db.Client.t;
  clientRoles : list Db.ClientRole.t;
  grants : list (string * string);
  entropy : byte;
}.

Definition notFound (what : string) : E.HttpError :=
  E.mk E.NotFound (what ++ " not found") None.

Definition forbidden : E.HttpError :=
  E.mk E.Forbidden "Forbidden" None.

Definition env : Env Store := fun c =>
  match c return Store -> (E.HttpError + Reply c) * Store with
  | LogDebug _ => fun w => (inr tt, w)
  | RandomBytes n => fun w => (inr (replicate (Z.to_nat n) (entropy w)), w)
  | BcryptHash s rounds => fun w =>
      (* a stand-in digest: salted by the world, blind to its input *)
      (inr ("$2a$10$" ++ JS.toHex [entropy w; entropy w]), w)
  | IoGetOrganization id => fun w =>
      match List.find (fun o => String.eqb (Db.Organization.id o) id)
              (organizations w) with
      | Some o => (inr o, w)
      | None => (inl (notFound "organization"), w)
      end
  | IoGetClient id => fun w =>
      match List.find (fun o => String.eqb (Db.Client.id o) id) (clients w) with
      | Some o => (inr o, w)
      | None => (inl (notFound "client"), w)
      end
  | IoGetClientsByOrg org => fun w =>
      (inr {| data := List.filter
                        (fun o => String.eqb (Db.Client.organizationId o) org)
                        (clients w);
              rest := [("t", JS.Str "collection")] |}, w)
  | IoGetClientRoles ids => fun w =>
      (inr {| data := List.filter
                        (fun o => existsb (String.eqb (Db.ClientRole.clientId o)) ids)
                        (clientRoles w);
              rest := [("t", JS.Str "collection")] |}, w)
  | IoSaveClient p _ => fun w =>
      let row :=
        {| Db.Client.id := Payload.organizationId p ++ "/" ++ Payload.name p;
           Db.Client.organizationId := Payload.organizationId p;
           Db.Client.name := Payload.name p;
           Db.Client.secretBcrypt := Payload.secretBcrypt p;
           Db.Client.reqsPerSec := Payload.reqsPerSec p |} in
      (inr row,
       {| organizations := organizations w; clients := (clients w ++ [row])%list;
          clientRoles := clientRoles w; grants := grants w;
          entropy := entropy w |})
  | IoSaveClientRole p _ => fun w =>
      let row :=
        {| Db.ClientRole.clientId := Payload.clientId p;
           Db.ClientRole.roleId := Payload.roleId p |} in
      (inr row,
       {| organizations := organizations w; clients := clients w;
          clientRoles := (clientRoles w ++ [row])%list; grants := grants w;
          entropy := entropy w |})
  | AuthorizeCallerForRole org _ level => fun w =>
      if existsb (fun g => String.eqb (fst g) org && String.eqb (snd g) level)
           (grants w)
      then (inr tt, w)
      else (inl forbidden, w)
  end.

Definition imports : Imports := {|
  notAuthd := E.mk E.InternalServerError "Request is not authenticated" None;
  assertAuth := fun _ => None;
  InvalidBodyError := fun _ => E.mk E.BadRequest "Invalid body" None;
  dbToApi := fun c =>
    {| Api.Client.id := Db.Client.id c;
       Api.Client.organizationId := Db.Client.organizationId c;
       Api.Client.name := Db.Client.name c;
       Api.Client.reqsPerSec := Db.Client.reqsPerSec c;
       Api.Client.roles := [] |};
|}.

Definition caller : Auth.ReqInfo :=
  {| Auth.clientId := "cli-1"; Auth.clientRoles := [INTERNAL];
     Auth.userId := Some "usr-1"; Auth.userRoles := ["employee"] |}.

Definition acme : Db.Organization.t :=
  {| Db.Organization.id := "org-1"; Db.Organization.name := "Acme" |}.

Definition globex : Db.Organization.t :=
  {| Db.Organization.id := "org-2"; Db.Organization.name := "Globex" |}.

Definition foreignClient : Db.Client.t :=
  {| Db.Client.id := "cl-9"; Db.Client.organizationId := "org-2";
     Db.Client.name := "globex batch"; Db.Client.secretBcrypt := "$2a$10$abc";
     Db.Client.reqsPerSec := 10 |}.

Definition store : Store :=
  {| organizations := [acme; globex]; clients := [foreignClient];
     clientRoles := [{| Db.ClientRole.clientId := "cl-9";
                        Db.ClientRole.roleId := EXTERNAL |}];
     grants := [("org-1", "read"); ("org-1", "manage")];
     entropy := x2a |}.

Definition request (method path : string) (params : list (string * string))
  (headers : list (string * string)) (body : JS.Value)
  (auth : option Auth.ReqInfo) : Http.Request :=
  {| Http.method := method; Http.path := path;
     Http.headers := list_to_map headers; Http.params := list_to_map params;
     Http.body := body; Http.auth := auth |}.

Definition newClientBody : JS.Value :=
  JS.Obj [("data", JS.Obj [("type", JS.Str "clients");
                           ("name", JS.Str "reporting")])].

End Sample.

(** ** Reading a trace *)

(** A client row the data layer accepted, with the payload it was given. *)
Definition persistedClient (e : Entry) : option (Payload.Client * Db.Client.t) :=
  match e with
  | answered c res =>
      match c return E.HttpError + Reply c -> option (Payload.Client * Db.Client.t) with
      | IoSaveClient p _ => fun res =>
          match res with
          | inr row => Some (p, row)
          | inl _ => None
          end
      | _ => fun _ => None
      end res
  end.

(** A client-role row the data layer accepted. *)
Definition grantedRole (e : Entry) : option Payload.ClientRole :=
  match e with
  | answered c res =>
      match c return E.HttpError + Reply c -> option Payload.ClientRole with
      | IoSaveClientRole p _ => fun res =>
          match res with
          | inr _ => Some p
          | inl _ => None
          end
      | _ => fun _ => None
      end res
  end.

Definition persistedClients (tr : list Entry) : list (Payload.Client * Db.Client.t) :=
  omap persistedClient tr.

Definition grantedRoles (tr : list Entry) : list Payload.ClientRole :=
  omap grantedRole tr.

(** A call to [io.save], accepted or not. *)
Definition isSave (e : Entry) : bool :=
  match call e with
  | IoSaveClient _ _ | IoSaveClientRole _ _ => true
  | _ => false
  end.

(** A read of client data: a client row, the clients of an organization,
    or client roles. *)
Definition readsClientData (e : Entry) : bool :=
  match call e with
  | IoGetClient _ | IoGetClientsByOrg _ | IoGetClientRoles _ => true
  | _ => false
  end.

(** The caller was authorized at [level] for [organizationId]: the call
    was made and came back without an error. *)
Definition authorized (organizationId : string) (auth : Auth.ReqInfo)
  (level : string) (e : Entry) : Prop :=
  e = answered (AuthorizeCallerForRole organizationId auth level) (inr tt).

(** Every entry of [tr] that satisfies [guarded] comes after an entry
    that satisfies [guard]. *)
Definition precededBy (guard : Entry -> Prop) (guarded : Entry -> bool)
  (tr : list Entry) : Prop :=
  forall before e after,
    tr = (before ++ e :: after)%list -> guarded e = true ->
    exists g, g ∈ before /\ guard g.

(** The call the environment refused, if the run ended on one. *)
Definition refused (tr : list Entry) : option E.HttpError :=
  match last tr with
  | Some (answered _ (inl e)) => Some e
  | _ => None
  end.

(** The parameters a request names in its path. *)
Definition orgIdOf (req : Http.Request) : option string :=
  Http.params req !! "orgId".

Definition clientIdOf (req : Http.Request) : option string :=
  Http.params req !! "id".

(** The caller of [req] was authorized at [level] for the organization
    the path of [req] names. *)
Definition authorizedFor (req : Http.Request) (level : string) (e : Entry)
  : Prop :=
  exists organizationId auth,
    orgIdOf req = Some organizationId /\ Http.auth req = Some auth /\
    authorized organizationId auth level e.





(** The role ids of the rows that belong to a client, in row order. *)
Definition roleIdsOf (rows : list Db.ClientRole.t) (clientId : string)
  : list ClientRoles :=
  Db.ClientRole.roleId <$>
    filter (fun row => Db.ClientRole.clientId row = clientId) rows.

(** [c'] is [c] in every field but [roles]. *)
Definition sameButRoles (c c' : Api.Client.t) : Prop :=
  Api.Client.id c' = Api.Client.id c /\
  Api.Client.organizationId c' = Api.Client.organizationId c /\
  Api.Client.name c' = Api.Client.name c /\
  Api.Client.reqsPerSec c' = Api.Client.reqsPerSec c.

(** The error of a refused authorization call. *)
Definition refusedAuthorization (x : Entry) : option (string * E.HttpError) :=
  match x with
  | answered c res =>
      match c return E.HttpError + Reply c -> option (string * E.HttpError) with
      | AuthorizeCallerForRole _ _ level => fun res =>
          match res with
          | inl e => Some (level, e)
          | inr _ => None
          end
      | _ => fun _ => None
      end res
  end.


(** The request passes the two assertions the client handlers make on
    its [auth] object before anything else. *)
Definition passesAssertions (L : Imports) (req : Http.Request) : Prop :=
  exists auth, Http.auth req = Some auth /\ assertAuth L auth = None.

(** A run that ended in an error before any call was made. *)
Definition failedAtOnce {W R : Type} (r : Run W R) (w : W) (e : E.HttpError)
  : Prop :=
  r = {| outcome := inl e; world := w; trace := [] |}.

(** A route whose first middleware is one of the two body parsers. *)
Definition usesBodyParser (r : Accounts.Route) : bool :=
  match Accounts.chain r with
  | Accounts.ParseBody :: _ | Accounts.ParseBodyAllowBlank :: _ => true
  | _ => false
  end.

(** The request carries no usable content type: the header is absent, or
    its value is not "application/json" whatever the case of its letters. *)
Definition badContentType (req : Http.Request) : Prop :=
  Http.get req "content-type" = None \/
  exists value,
    Http.get req "content-type" = Some value /\
    JS.toLowerCase value <> "application/json".

(** The request carries the content type the parsers ask for. *)
Definition jsonContentType (req : Http.Request) : Prop :=
  exists value,
    Http.get req "content-type" = Some value /\
    JS.toLowerCase value = "application/json".

(** The body-carrying sessions endpoints other than logout: the four
    login steps and refresh. *)
Definition loginAndRefresh : list string := [
  "/accounts/v1/sessions/login/email";
  "/accounts/v1/sessions/login/password";
  "/accounts/v1/sessions/login/code";
  "/accounts/v1/sessions/login/totp";
  "/accounts/v1/sessions/refresh"
].

Definition logout : string := "/accounts/v1/sessions/logout".

(** The route registered for a path. *)
Definition routeFor (path : string) (r : Accounts.Route) : Prop :=
  r ∈ Accounts.register /\ Accounts.paths r = [path].

Module Sample2.

Import Sample.


Definition postRequest : Http.Request :=
  request "POST" "/organizations/org-1/clients" [("orgId", "org-1")] []
    newClientBody (Some caller).

(** The same request from a caller without the "manage" grant on org-2. *)
Definition postRequestElsewhere : Http.Request :=
  request "POST" "/organizations/org-2/clients" [("orgId", "org-2")] []
    newClientBody (Some caller).

(** A request without the route parameter. *)
Definition postRequestNoOrg : Http.Request :=
  request "POST" "/organizations//clients" [] [] newClientBody (Some caller).


Definition storeWithGrant : Store :=
  {| organizations := organizations store; clients := clients store;
     clientRoles := clientRoles store;
     grants := ("org-2", "read") :: grants store;
     entropy := entropy store |}.

(** The same client asked for under its own organization. *)
Definition getOwn : Http.Request :=
  request "GET" "/organizations/org-2/clients/cl-9"
    [("orgId", "org-2"); ("id", "cl-9")] [] JS.Undefined (Some caller).

Definition newClient : NewClient :=
  {| organizationId := "org-1"; name := "reporting" |}.

Definition handlers : Accounts.Handlers := fun _ _ => Accounts.Sent 200 JS.Null.

(** A parser that leaves the body the request arrived with. *)
Definition json : Accounts.JsonParser := fun req => inr (Http.body req).

Definition loginEmail (headers : list (string * string)) (body : JS.Value)
  : Http.Request :=
  request "POST" "/accounts/v1/sessions/login/email" [] headers body None.

Definition logoutRequest (headers : list (string * string)) (body : JS.Value)
  : Http.Request :=
  request "POST" "/accounts/v1/sessions/logout" [] headers body None.


End Sample2.

(** ** More readings of a trace *)

(** The error a call was refused with. *)
Definition refusal (x : Entry) : option E.HttpError :=
  match result x with
  | inl e => Some e
  | inr _ => None
  end.

(** A call that saves a client-role row. *)
Definition isRoleSave (x : Entry) : bool :=
  match call x with
  | IoSaveClientRole _ _ => true
  | _ => false
  end.


(** The request reaches the body of a client handler: it passes the two
    assertions and names an organization. *)
Definition reaches (L : Imports) (req : Http.Request) (auth : Auth.ReqInfo)
  (organizationId : string) : Prop :=
  Http.auth req = Some auth /\ assertAuth L auth = None /\
  orgIdOf req = Some organizationId /\ organizationId <> "".

(** A lowercase hexadecimal digit. *)
Definition isHexDigit (c : ascii) : bool :=
  let n := N_of_ascii c in
  (((48 <=? n) && (n <=? 57)) || ((97 <=? n) && (n <=? 102)))%N.

Fixpoint allHexDigits (s : string) : bool :=
  match s with
  | EmptyString => true
  | String c rest => isHexDigit c && allHexDigits rest
  end.

(** The value of a hexadecimal digit, and the bytes a hex string stands
    for (what [Buffer.from(s, "hex")] reads back). *)
Definition hexValue (c : ascii) : N :=
  let n := N_of_ascii c in
  if (n <=? 57)%N then (n - 48)%N else (n - 87)%N.

Fixpoint fromHex (s : string) : list byte :=
  match s with
  | String hi (String lo rest) =>
      match Byte.of_N (16 * hexValue hi + hexValue lo) with
      | Some b => b :: fromHex rest
      | None => []
      end
  | _ => []
  end.

Module Sample3.

Import Sample.

Definition unavailable : E.HttpError :=
  E.mk E.BadGateway "The database went away" None.

(** The sample environment with a data layer that refuses to save roles. *)
Definition envRefusingRoles : Env Store := fun c =>
  match c return Store -> (E.HttpError + Reply c) * Store with
  | IoSaveClientRole _ _ => fun w => (inl unavailable, w)
  | c' => env c'
  end.

(** A request for the clients of an organization that does not exist. *)
Definition getNowhere : Http.Request :=
  request "GET" "/organizations/org-3/clients" [("orgId", "org-3")] []
    JS.Undefined (Some caller).

(** A request for the clients of org-2. *)
Definition getList : Http.Request :=
  request "GET" "/organizations/org-2/clients" [("orgId", "org-2")] []
    JS.Undefined (Some caller).

(** A body that names the wrong resource type. *)
Definition wrongTypeBody : JS.Value :=
  JS.Obj [("data", JS.Obj [("type", JS.Str "users");
                           ("name", JS.Str "reporting")])].

Definition postWrongType : Http.Request :=
  request "POST" "/organizations/org-3/clients" [("orgId", "org-3")] []
    wrongTypeBody (Some caller).

(** The one client of org-2 as the API shows it. *)
Definition listedClient : Api.Client.t :=
  {| Api.Client.id := "cl-9"; Api.Client.organizationId := "org-2";
     Api.Client.name := "globex batch"; Api.Client.reqsPerSec := 10;
     Api.Client.roles := [EXTERNAL] |}.

Definition listResponse : Http.Response :=
  {| Http.status := 200;
     Http.sent := Http.Many [("t", JS.Str "collection")] [listedClient] |}.


Definition patchMembership : Accounts.Route :=
  {| Accounts.verb := Accounts.PATCH;
     Accounts.paths := ["/accounts/v1/org-memberships/:id"];
     Accounts.chain :=
       [Accounts.Handle Accounts.OrgMemberships_patchOrgMembershipHandler] |}.

Definition getUsers : Accounts.Route :=
  {| Accounts.verb := Accounts.GET;
     Accounts.paths := ["/accounts/v1/users"];
     Accounts.chain := [Accounts.Handle Accounts.Users_getUsers] |}.

Definition loginEmailRoute : Accounts.Route :=
  {| Accounts.verb := Accounts.POST;
     Accounts.paths := ["/accounts/v1/sessions/login/email"];
     Accounts.chain :=
       [Accounts.ParseBody;
        Accounts.Handle Accounts.Sessions_handlePostSessionsLoginEmail] |}.


End Sample3.

(** ** Comparing routes *)

(** A pattern segment that is neither empty nor the wildcard. *)
Definition plainSegment (seg : string) : bool :=
  negb (String.eqb seg "*") && negb (String.eqb seg "").

(** Some path segment is taken by both pattern segments. *)
Definition segmentsMeet (p q : string) : bool :=
  Router.isParam p || Router.isParam q
  || String.eqb (JS.toLowerCase p) (JS.toLowerCase q).

Fixpoint patternsMeet (ps qs : list string) : bool :=
  match ps, qs with
  | [], [] => true
  | p :: ps', q :: qs' => segmentsMeet p q && patternsMeet ps' qs'
  | _, _ => false
  end.

(** A pattern as [register] writes its endpoints: a leading slash, then
    plain segments, the first three of which are [accounts], [v1] and a
    third one. *)
Definition endpointPattern (pattern : string) : bool :=
  match Router.segments pattern with
  | root :: a :: v :: x :: more =>
      String.eqb root "" && String.eqb a "accounts" && String.eqb v "v1"
      && forallb plainSegment (x :: more)
  | _ => false
  end.

(** Some method is taken by both verbs. *)
Definition verbsMeet (v1 v2 : Accounts.Verb) : bool :=
  match v1, v2 with
  | Accounts.ALL, _ | _, Accounts.ALL => true
  | Accounts.GET, Accounts.GET | Accounts.POST, Accounts.POST
  | Accounts.PATCH, Accounts.PATCH | Accounts.DELETE, Accounts.DELETE => true
  | _, _ => false
  end.

(** Two routes could take one and the same request. *)
Definition routesMeet (r1 r2 : Accounts.Route) : bool :=
  verbsMeet (Accounts.verb r1) (Accounts.verb r2)
  && existsb
       (fun p1 =>
          existsb
            (fun p2 => patternsMeet (Router.segments p1) (Router.segments p2))
            (Accounts.paths r2))
       (Accounts.paths r1).

#[export] Instance Verb_eq_dec : EqDecision Accounts.Verb.
Proof. solve_decision. Defined.

#[export] Instance HandlerId_eq_dec : EqDecision Accounts.HandlerId.
Proof. solve_decision. Defined.

#[export] Instance Middleware_eq_dec : EqDecision Accounts.Middleware.
Proof. solve_decision. Defined.

#[export] Instance Route_eq_dec : EqDecision Accounts.Route.
Proof. solve_decision. Defined.




(** * Properties *)

(** ** Running programs *)

Section Running.

Context {W : Type} (env : Env W).

Lemma run_await {R : Type} (c : Call) (k : Reply c -> Prog R) (w : W) :
  run env (Await c k) w =
  match env c w with
  | (inl e, w') =>
      {| outcome := inl e; world := w'; trace := [answered c (inl e)] |}
  | (inr x, w') =>
      {| outcome := outcome (run env (k x) w');
         world := world (run env (k x) w');
         trace := answered c (inr x) :: trace (run env (k x) w') |}
  end.
Proof. reflexivity. Qed.

(** Sequencing: the second part runs in the world the first part left,
    unless the first part threw. *)
Lemma run_bind {A B : Type} (p : Prog A) (f : A -> Prog B) (w : W) :
  run env (bind p f) w =
  match outcome (run env p w) with
  | inl e =>
      {| outcome := inl e; world := world (run env p w);
         trace := trace (run env p w) |}
  | inr a =>
      {| outcome := outcome (run env (f a) (world (run env p w)));
         world := world (run env (f a) (world (run env p w)));
         trace := (trace (run env p w)
                   ++ trace (run env (f a) (world (run env p w))))%list |}
  end.
Proof.
  revert w; induction p as [a | e | c k IH]; intros w; simpl.
  - destruct (run env (f a) w); reflexivity.
  - reflexivity.
  - destruct (env c w) as [[e | x] w']; simpl; [reflexivity |].
    rewrite IH. destruct (outcome (run env (k x) w')); reflexivity.
Qed.

End Running.

(** Answer the next awaited call both ways. *)
Ltac answer :=
  match goal with
  | |- context [match ?env ?c ?w with _ => _ end] =>
      let e := fresh "e" in
      let x := fresh "x" in
      let w' := fresh "w" in
      let Hc := fresh "Hcall" in
      destruct (env c w) as [[e | x] w'] eqn:Hc; simpl
  end.

(** The same, naming the answer. *)
Tactic Notation "answer" "as" ident(x) :=
  match goal with
  | |- context [match ?env ?c ?w with _ => _ end] =>
      let e := fresh "e" in
      let w' := fresh "w" in
      let Hc := fresh "Hcall" in
      destruct (env c w) as [[e | x] w'] eqn:Hc; simpl
  end.

(** ** [createClient] *)

Section CreateClient.

Context {W : Type} (env : Env W).

(** The run of [createClient], call by call: either some call was refused
    and at most the client row was saved, or all five calls were answered. *)
Lemma createClient_trace (newClient : NewClient) (auth : Auth.ReqInfo) (w : W) :
  let r := run env (createClient newClient auth) w in
  (exists e, outcome r = inl e /\ refused (trace r) = Some e /\
             grantedRoles (trace r) = [] /\
             (persistedClients (trace r) = [] \/
              exists h row,
                persistedClients (trace r) =
                  [({| Payload.organizationId := organizationId newClient;
                       Payload.name := name newClient;
                       Payload.secretBcrypt := h;
                       Payload.reqsPerSec := 10 |}, row)])) \/
  (exists bytes h row role,
     let p := {| Payload.organizationId := organizationId newClient;
                 Payload.name := name newClient;
                 Payload.secretBcrypt := h;
                 Payload.reqsPerSec := 10 |} in
     let g := {| Payload.clientId := Db.Client.id row;
                 Payload.roleId := EXTERNAL |} in
     outcome r = inr {| client := row; secret := JS.toHex bytes |} /\
     trace r = [answered (LogDebug "Generating client secret") (inr tt);
                answered (RandomBytes 32) (inr bytes);
                answered (BcryptHash (JS.toHex bytes) 10) (inr h);
                answered (IoSaveClient p auth) (inr row);
                answered (IoSaveClientRole g auth) (inr role)]).
Proof.
  unfold createClient; simpl.
  repeat answer.
  all: try (left; eexists; repeat split; eauto; fail).
  destruct x. right. do 4 eexists. repeat split; eauto.
Qed.

End CreateClient.

(** C10. Whatever organization and name the caller supplies and however
    the environment answers: every client row [createClient] gets saved
    carries a budget of exactly 10 requests per second; every role it
    grants is [ClientRoles.EXTERNAL]; when it returns a client, exactly
    that one client row was saved and exactly one role, EXTERNAL, was
    granted to it; and it fails only when one of its calls is refused. *)
Theorem createClient_budget_and_role :
  forall (W : Type) (env : Env W) (newClient : NewClient)
         (auth : Auth.ReqInfo) (w : W),
    (forall p row,
        (p, row) ∈ persistedClients (trace (run env (createClient newClient auth) w)) ->
        Payload.reqsPerSec p = 10 /\
        Payload.organizationId p = organizationId newClient /\
        Payload.name p = name newClient) /\
    (forall g,
        g ∈ grantedRoles (trace (run env (createClient newClient auth) w)) ->
        Payload.roleId g = EXTERNAL) /\
    (forall created,
        outcome (run env (createClient newClient auth) w) = inr created ->
        (exists p,
            Payload.reqsPerSec p = 10 /\
            persistedClients (trace (run env (createClient newClient auth) w))
            = [(p, client created)]) /\
        grantedRoles (trace (run env (createClient newClient auth) w))
        = [{| Payload.clientId := Db.Client.id (client created);
              Payload.roleId := EXTERNAL |}]) /\
    (forall e,
        outcome (run env (createClient newClient auth) w) = inl e ->
        refused (trace (run env (createClient newClient auth) w)) = Some e).
Proof.
  intros W env newClient auth w.
  destruct (createClient_trace env newClient auth w)
    as [(e & Ho & Href & Hg & Hp) | (bytes & h & row & role & Ho & Ht)];
    cbv zeta in *.
  - rewrite Ho, Hg. split; [| split; [| split]].
    + intros p row' Hin.
      destruct Hp as [Hp | (h & row'' & Hp)]; rewrite Hp in Hin.
      * inversion Hin.
      * apply list_elem_of_singleton in Hin. injection Hin as -> _.
        repeat split.
    + intros g Hin. inversion Hin.
    + discriminate.
    + intros e' [= <-]. exact Href.
  - rewrite Ho, Ht. simpl. split; [| split; [| split]].
    + intros p row' Hin.
      apply list_elem_of_singleton in Hin. injection Hin as -> _.
      repeat split.
    + intros g Hin. apply list_elem_of_singleton in Hin. subst g. reflexivity.
    + intros created [= <-]. simpl. split; [| reflexivity].
      eexists. split; [| reflexivity]. reflexivity.
    + discriminate.
Qed.

(** ** [addRoles] *)

Lemma add_roles (roles : Collection Db.ClientRole.t) (c : Api.Client.t) :
  Api.Client.roles (add roles c) = roleIdsOf (data roles) (Api.Client.id c)
  /\ sameButRoles c (add roles c).
Proof. split; [reflexivity | repeat split]. Qed.

(** A role id is among [roleIdsOf rows id] exactly when some row of the
    client carries it. *)
Lemma elem_of_roleIdsOf (rows : list Db.ClientRole.t) (id : string)
  (role : ClientRoles) :
  role ∈ roleIdsOf rows id <->
  exists row, row ∈ rows /\ Db.ClientRole.clientId row = id
              /\ Db.ClientRole.roleId row = role.
Proof.
  unfold roleIdsOf. rewrite list_elem_of_fmap. split.
  - intros (row & -> & Hin). apply list_elem_of_filter in Hin as [Hid Hin].
    exists row. auto.
  - intros (row & Hin & Hid & <-). exists row. split; [reflexivity |].
    apply list_elem_of_filter. auto.
Qed.

Lemma roleIdsOf_none (rows : list Db.ClientRole.t) (id : string) :
  (forall row, row ∈ rows -> Db.ClientRole.clientId row <> id) ->
  roleIdsOf rows id = [].
Proof.
  intros Hnone. unfold roleIdsOf.
  induction rows as [| row rows IH]; [reflexivity |].
  rewrite filter_cons. destruct (decide (Db.ClientRole.clientId row = id)) as [Heq | Hne].
  - exfalso. apply (Hnone row); [left | exact Heq].
  - apply IH. intros row' Hin. apply Hnone. right. exact Hin.
Qed.

(** C5. [addRoles], given one client or a list of clients, asks the data
    layer once for the client-roles rows of their ids; when that call is
    answered, the result gives each client as [roles] exactly the role ids
    of the answered rows whose [clientId] is the client's id (none when
    there is no such row), leaves every other field as it was, and keeps
    the clients in their order; when the call is refused, so is
    [addRoles]. *)
Theorem addRoles_assigns_roles :
  forall (W : Type) (env : Env W) (w : W),
    (forall client : Api.Client.t,
        match env (IoGetClientRoles [Api.Client.id client]) w with
        | (inr rows, _) =>
            exists client' : Api.Client.t,
              outcome (run env (addRoles false client) w) = inr client' /\
              Api.Client.roles client'
              = roleIdsOf (data rows) (Api.Client.id client) /\
              sameButRoles client client'
        | (inl e, _) => outcome (run env (addRoles false client) w) = inl e
        end) /\
    (forall clients : list Api.Client.t,
        match env (IoGetClientRoles (Api.Client.id <$> clients)) w with
        | (inr rows, _) =>
            exists clients' : list Api.Client.t,
              outcome (run env (addRoles true clients) w) = inr clients' /\
              length clients' = length clients /\
              forall (i : nat) (c : Api.Client.t),
                clients !! i = Some c ->
                exists c' : Api.Client.t,
                  clients' !! i = Some c' /\
                  Api.Client.roles c'
                  = roleIdsOf (data rows) (Api.Client.id c) /\
                  sameButRoles c c'
        | (inl e, _) => outcome (run env (addRoles true clients) w) = inl e
        end).
Proof.
  intros W env w. split.
  - intros c. simpl.
    destruct (env (IoGetClientRoles [Api.Client.id c]) w) as [[e | rows] w'];
      simpl; [reflexivity |].
    exists (add rows c). split; [reflexivity | apply add_roles].
  - intros cs. simpl.
    destruct (env (IoGetClientRoles (Api.Client.id <$> cs)) w) as [[e | rows] w'];
      simpl; [reflexivity |].
    exists (add rows <$> cs). split; [reflexivity |]. split.
    + apply length_fmap.
    + intros i c Hi. exists (add rows c). split.
      * rewrite list_lookup_fmap, Hi. reflexivity.
      * apply add_roles.
Qed.

(** ** Traces *)

Lemma precededBy_nil (guard : Entry -> Prop) (guarded : Entry -> bool) :
  precededBy guard guarded [].
Proof. intros [| y before] e after Heq; discriminate. Qed.

Lemma precededBy_skip (guard : Entry -> Prop) (guarded : Entry -> bool)
  (x : Entry) (tr : list Entry) :
  guarded x = false -> precededBy guard guarded tr ->
  precededBy guard guarded (x :: tr).
Proof.
  intros Hx Htr [| y before] e after Heq Hg; simplify_eq/=.
  - congruence.
  - destruct (Htr before e after eq_refl Hg) as (g & Hin & Hguard).
    exists g. split; [right; exact Hin | exact Hguard].
Qed.

Lemma precededBy_open (guard : Entry -> Prop) (guarded : Entry -> bool)
  (x : Entry) (tr : list Entry) :
  guarded x = false -> guard x -> precededBy guard guarded (x :: tr).
Proof.
  intros Hx Hguard [| y before] e after Heq Hg; simplify_eq/=.
  - congruence.
  - exists y. split; [left | exact Hguard].
Qed.

(** Split a membership in an explicit trace into its cases. *)
Ltac members H :=
  repeat match type of H with
         | _ ∈ _ :: _ => apply elem_of_cons in H as [-> | H]
         | _ ∈ [] => inversion H
         end.

(** Walk an explicit trace up to its guard. *)
Ltac guard_walk opened :=
  repeat first
    [ apply precededBy_nil
    | apply precededBy_open; [reflexivity | opened; fail]
    | apply precededBy_skip; [reflexivity |] ].

(** Open a handler up to its first awaited call. *)
Ltac prelude L req :=
  unfold getClientsForOrgHandler, postClientHandler, assertAuthdReq,
    orgIdOf, clientIdOf in *;
  simpl;
  destruct (Http.auth req) as [auth |] eqn:Hauth; simpl;
  [ destruct (assertAuth L auth) as [notOk |] eqn:Hassert; simpl;
    [ | destruct (Http.params req !! "orgId") as [organizationId |] eqn:Horg;
        simpl;
        [ destruct (String.eqb organizationId "") eqn:Hempty; simpl | ] ]
  | ].

(** ** The guard on the [orgId] parameter *)

(** C8. A request whose [orgId] route parameter is missing (or empty)
    makes either handler fail before any call is made: the trace is empty,
    the world is the one the request found, and nothing is sent. The
    handlers reach the check on [orgId] once the request has passed their
    two assertions on its [auth] object, and the error is then
    [InternalServerError] with code GET-CLIENTS-BAD-PARAMS. *)
Theorem missing_orgId_is_programmer_fault :
  forall (W : Type) (env : Env W) (L : Imports) (req : Http.Request) (w : W),
    JS.falsyStr (orgIdOf req) = true ->
    E.name badParams = E.InternalServerError /\
    E.subcode badParams = Some "GET-CLIENTS-BAD-PARAMS" /\
    (exists e,
        failedAtOnce (run env (getClientsForOrgHandler L req) w) w e /\
        (passesAssertions L req -> e = badParams)) /\
    (exists e,
        failedAtOnce (run env (postClientHandler L req) w) w e /\
        (passesAssertions L req -> e = badParams)).
Proof.
  intros W env L req w Hmissing.
  unfold failedAtOnce, passesAssertions, getClientsForOrgHandler,
    postClientHandler, assertAuthdReq, orgIdOf in *.
  simpl. split; [reflexivity |]. split; [reflexivity |].
  destruct (Http.auth req) as [auth |]; simpl.
  - destruct (assertAuth L auth) as [notOk |] eqn:Hassert; simpl.
    + split; eexists; (split; [reflexivity |]);
        intros (auth' & [= <-] & Hok); congruence.
    + rewrite Hmissing.
      split; eexists; (split; [reflexivity |]); reflexivity.
  - split; eexists; (split; [reflexivity |]);
      intros (auth' & Hnone & _); discriminate.
Qed.

(** ** Authorization comes first *)

(** Take the next branch of a handler. *)
Ltac branch :=
  match goal with
  | |- context [if ?b then _ else _] => destruct b eqn:?; simpl
  | |- context [match ?o with Some _ => _ | None => _ end] =>
      destruct o eqn:?; simpl
  end.

Ltac explore := repeat first [answer | branch].

Section Authorization.

Context {W : Type} (env : Env W) (L : Imports).

Lemma authorizedFor_intro (req : Http.Request) (organizationId : string)
  (auth : Auth.ReqInfo) (level : string) (x : unit) :
  Http.params req !! "orgId" = Some organizationId ->
  Http.auth req = Some auth ->
  authorizedFor req level
    (answered (AuthorizeCallerForRole organizationId auth level) (inr x)).
Proof.
  intros Horg Hauth. destruct x. exists organizationId, auth.
  repeat split; assumption.
Qed.

Lemma get_authorizes_first (req : Http.Request) (w : W) :
  precededBy (authorizedFor req "read") readsClientData
    (trace (run env (getClientsForOrgHandler L req) w)) /\
  (forall resp,
      outcome (run env (getClientsForOrgHandler L req) w) = inr resp ->
      exists g, g ∈ trace (run env (getClientsForOrgHandler L req) w)
                /\ authorizedFor req "read" g).
Proof.
  prelude L req; try (split; [apply precededBy_nil | discriminate]).
  explore.
  all: split;
    [ guard_walk ltac:(apply authorizedFor_intro; assumption)
    | try discriminate ].
  all: intros resp _; eexists; split;
    [ right; left
    | apply authorizedFor_intro; assumption ].
Qed.

Lemma post_authorizes_first (req : Http.Request) (w : W) :
  precededBy (authorizedFor req "manage") isSave
    (trace (run env (postClientHandler L req) w)) /\
  (forall resp,
      outcome (run env (postClientHandler L req) w) = inr resp ->
      exists g, g ∈ trace (run env (postClientHandler L req) w)
                /\ authorizedFor req "manage" g).
Proof.
  prelude L req; try (split; [apply precededBy_nil | discriminate]).
  explore.
  all: split;
    [ guard_walk ltac:(apply authorizedFor_intro; assumption)
    | try discriminate ].
  all: intros resp _; eexists; split;
    [ right; left
    | apply authorizedFor_intro; assumption ].
Qed.

(** When the authorization call of [postClientHandler] is refused, its
    error is the outcome and no save was attempted. *)
Lemma post_refused_saves_nothing (req : Http.Request) (w : W) :
  forall x level e,
    x ∈ trace (run env (postClientHandler L req) w) ->
    refusedAuthorization x = Some (level, e) ->
    level = "manage" /\
    outcome (run env (postClientHandler L req) w) = inl e /\
    (forall y, y ∈ trace (run env (postClientHandler L req) w) ->
               isSave y = false) /\
    persistedClients (trace (run env (postClientHandler L req) w)) = [] /\
    grantedRoles (trace (run env (postClientHandler L req) w)) = [].
Proof.
  intros x level e. prelude L req; try (intros Hin; inversion Hin; fail).
  explore; intros Hin Href; members Hin; simpl in Href; try discriminate.
  injection Href as <- <-. repeat split.
  intros y Hy. members Hy; reflexivity.
Qed.

End Authorization.

(** C2. [getClientsForOrgHandler] reads client data, and sends a
    response, only after the caller was authorized at level "read" for
    the organization named in the path; [postClientHandler] saves, and
    sends a response, only after the caller was authorized at level
    "manage" for it. When the authorization call of [postClientHandler]
    is refused, the request ends in that error and neither a client row
    nor a client-role row is saved, nor was a save attempted. *)
Theorem handlers_authorize_first :
  forall (W : Type) (env : Env W) (L : Imports) (req : Http.Request) (w : W),
    (precededBy (authorizedFor req "read") readsClientData
       (trace (run env (getClientsForOrgHandler L req) w)) /\
     forall resp,
       outcome (run env (getClientsForOrgHandler L req) w) = inr resp ->
       exists g, g ∈ trace (run env (getClientsForOrgHandler L req) w)
                 /\ authorizedFor req "read" g) /\
    (precededBy (authorizedFor req "manage") isSave
       (trace (run env (postClientHandler L req) w)) /\
     forall resp,
       outcome (run env (postClientHandler L req) w) = inr resp ->
       exists g, g ∈ trace (run env (postClientHandler L req) w)
                 /\ authorizedFor req "manage" g) /\
    (forall x level e,
        x ∈ trace (run env (postClientHandler L req) w) ->
        refusedAuthorization x = Some (level, e) ->
        level = "manage" /\
        outcome (run env (postClientHandler L req) w) = inl e /\
        (forall y, y ∈ trace (run env (postClientHandler L req) w) ->
                   isSave y = false) /\
        persistedClients (trace (run env (postClientHandler L req) w)) = [] /\
        grantedRoles (trace (run env (postClientHandler L req) w)) = []).
Proof.
  intros W env L req w. split; [| split].
  - apply get_authorizes_first.
  - apply post_authorizes_first.
  - apply post_refused_saves_nothing.
Qed.

(** ** Clients of other organizations *)

Section ForeignClients.

Context {W : Type} (env : Env W) (L : Imports).



End ForeignClients.


(** ** The client secret *)

(** Find an entry in an explicit trace. *)
Ltac here := solve [repeat first [left | right]].

Section Secret.

Context {W : Type} (L : Imports).






End Secret.

Lemma toHex_length (bytes : list byte) :
  String.length (JS.toHex bytes) = (2 * length bytes)%nat.
Proof.
  induction bytes as [| b bytes IH]; simpl; [reflexivity |].
  rewrite IH. lia.
Qed.


(** ** [mockCache] *)

(** C4, as the code has it. [mockCache] stores nothing and coalesces
    nothing: [get] is the computation it is handed, invoked anew on every
    call whatever the key and the time to live; [clear] changes nothing;
    so a [get] after a [clear] computes again, and so does the second of
    two requests for one key, whose promise is not the one in flight. *)
Theorem mockCache_computes_every_time :
  forall (S T : Type) (k : string) (v : Mocks.Thunk S T) (ttl : option Z) (s : S),
    Mocks.get k v ttl s = v tt s /\
    (forall k', Mocks.clear k' s = (tt, s)) /\
    (forall k', Mocks.get k v ttl (snd (Mocks.clear k' s)) = v tt s) /\
    Mocks.twoRequests Mocks.get k v s
    = (fst (v tt s), fst (v tt (snd (v tt s))), snd (v tt (snd (v tt s)))) /\
    (forall n : nat,
        Mocks.twoRequests Mocks.get k Mocks.slowCompute n
        = (Mocks.Pending n, Mocks.Pending (Datatypes.S n),
           Datatypes.S (Datatypes.S n))).
Proof.
  intros S T k v ttl s. repeat split.
  unfold Mocks.twoRequests, Mocks.get.
  destruct (v tt s) as [a s1]; simpl. destruct (v tt s1) as [b s2]; reflexivity.
Qed.

(** C4, as the claim has it, fails: [mockCache.get] does not coalesce. *)
Lemma mockCache_does_not_coalesce : ~ Mocks.coalesces Mocks.get.
Proof.
  intros Hcoalesces. specialize (Hcoalesces "organizations" 0%nat).
  discriminate Hcoalesces.
Qed.

(** ** Body parsing *)

Section BodyParsing.

Import Accounts.

Context (hs : Handlers) (json : JsonParser).

Lemma getParseBodyFunc_bad_content_type (allowBlankBodies : bool)
  (req : Http.Request) :
  badContentType req ->
  getParseBodyFunc json allowBlankBodies req
  = (NextErr (unsupportedMediaType (Http.get req "content-type")), req).
Proof.
  unfold getParseBodyFunc. intros [Habsent | (value & Hvalue & Hother)].
  - rewrite Habsent. reflexivity.
  - rewrite Hvalue. simpl.
    apply String.eqb_neq in Hother. rewrite Hother.
    rewrite orb_true_r. reflexivity.
Qed.

Lemma getParseBodyFunc_parsed (allowBlankBodies : bool) (req : Http.Request)
  (b : JS.Value) :
  jsonContentType req -> json req = inr b ->
  getParseBodyFunc json allowBlankBodies req
  = if negb allowBlankBodies && isBlank b
    then (NextErr (blankBody (Http.get req "content-type")), withBody req b)
    else (Next, withBody req b).
Proof.
  unfold getParseBodyFunc. intros (value & Hvalue & Hjson) Hparsed.
  rewrite Hvalue. simpl. rewrite Hjson. simpl.
  destruct (String.eqb value "") eqn:Hempty.
  - apply String.eqb_eq in Hempty. subst value. discriminate Hjson.
  - simpl. rewrite Hparsed. reflexivity.
Qed.

Lemma usesBodyParser_chain (r : Route) :
  usesBodyParser r = true ->
  exists rest, chain r = ParseBody :: rest \/ chain r = ParseBodyAllowBlank :: rest.
Proof.
  unfold usesBodyParser. destruct (chain r) as [| [| | h |] rest];
    try discriminate; intros _; exists rest; auto.
Qed.

Lemma runChain_bad_content_type (ms : list Middleware) (req : Http.Request) :
  badContentType req ->
  (exists rest, ms = ParseBody :: rest \/ ms = ParseBodyAllowBlank :: rest) ->
  runChain hs json ms req
  = (NextErr (unsupportedMediaType (Http.get req "content-type")), req, []).
Proof.
  intros Hbad (rest & [-> | ->]); simpl;
    unfold parseBody, parseBodyAllowBlank;
    rewrite getParseBodyFunc_bad_content_type by exact Hbad; reflexivity.
Qed.

(** A handler at the end of a chain decides for the chain. *)
Lemma runChain_handler (h : HandlerId) (req : Http.Request) :
  runChain hs json [Handle h] req = (hs h req, req, [h]).
Proof. simpl. destruct (hs h req); reflexivity. Qed.

End BodyParsing.

(** ** Routing *)

Section Routing.

Import Accounts Router.

Context (hs : Handlers) (json : JsonParser).




(** Routes that do not match are passed over. *)
Lemma dispatch_skip (before after : list Route) (req : Http.Request) :
  (forall r, r ∈ before -> routeMatches r req = false) ->
  dispatch hs json (before ++ after) req = dispatch hs json after req.
Proof.
  induction before as [| r before IH]; intros Hnone; simpl; [reflexivity |].
  rewrite (Hnone r) by left. apply IH. intros r' Hin. apply Hnone. right. exact Hin.
Qed.




End Routing.

(** C6. For every route [register] adds with one of the two body
    parsers in front, every request whose Content-Type header is absent,
    or is not "application/json" up to the case of its letters, ends in
    an [UnsupportedMediaType] error: the parser is not consulted, no
    handler runs, and this holds whatever the body, the parser and the
    handlers are; such a request is answered so by the first route it
    matches. *)
Theorem bad_content_type_is_rejected :
  forall (hs : Accounts.Handlers) (json : Accounts.JsonParser)
         (route : Accounts.Route) (req : Http.Request),
    route ∈ Accounts.register ->
    usesBodyParser route = true ->
    badContentType req ->
    E.name (Accounts.unsupportedMediaType (Http.get req "content-type"))
    = E.UnsupportedMediaType /\
    Accounts.runChain hs json (Accounts.chain route) req
    = (Accounts.NextErr
         (Accounts.unsupportedMediaType (Http.get req "content-type")),
       req, []) /\
    (forall before after,
        Accounts.register = (before ++ route :: after)%list ->
        (forall r, r ∈ before -> Router.routeMatches r req = false) ->
        Router.routeMatches route req = true ->
        Router.dispatch hs json Accounts.register req
        = (Router.Failed
             (Accounts.unsupportedMediaType (Http.get req "content-type")),
           [])).
Proof.
  intros hs json route req _ Hparser Hbad.
  pose proof (runChain_bad_content_type hs json (Accounts.chain route) req Hbad
                (usesBodyParser_chain route Hparser)) as Hchain.
  split; [reflexivity |]. split; [exact Hchain |].
  intros before after -> Hnone Hmatch.
  rewrite dispatch_skip by exact Hnone.
  simpl. rewrite Hmatch, Hchain. reflexivity.
Qed.

(** The routes of the sessions endpoints that carry a body. *)
Lemma routeFor_logout (route : Accounts.Route) :
  routeFor logout route ->
  Accounts.chain route
  = [Accounts.ParseBodyAllowBlank;
     Accounts.Handle Accounts.Sessions_handlePostSessionsLogout].
Proof.
  intros [Hin Hpaths]. unfold logout in Hpaths.
  unfold Accounts.register, Accounts.endpoints in Hin. simpl in Hin.
  members Hin; simpl in Hpaths; try discriminate Hpaths; reflexivity.
Qed.

Lemma routeFor_loginAndRefresh (path : string) (route : Accounts.Route) :
  path ∈ loginAndRefresh -> routeFor path route ->
  exists h, Accounts.chain route = [Accounts.ParseBody; Accounts.Handle h].
Proof.
  intros Hpath [Hin Hpaths].
  unfold loginAndRefresh in Hpath. members Hpath;
    unfold Accounts.register, Accounts.endpoints in Hin; simpl in Hin;
    members Hin; simpl in Hpaths; try discriminate Hpaths;
    eexists; reflexivity.
Qed.

Lemma routeFor_exists (path : string) :
  path = logout \/ path ∈ loginAndRefresh -> exists route, routeFor path route.
Proof.
  intros [-> | Hpath].
  - eexists. split.
    { unfold Accounts.register, Accounts.endpoints. simpl. do 22 right. left. }
    reflexivity.
  - unfold loginAndRefresh in Hpath. members Hpath.
    + eexists. split.
      { unfold Accounts.register, Accounts.endpoints. simpl. do 17 right. left. }
      reflexivity.
    + eexists. split.
      { unfold Accounts.register, Accounts.endpoints. simpl. do 18 right. left. }
      reflexivity.
    + eexists. split.
      { unfold Accounts.register, Accounts.endpoints. simpl. do 19 right. left. }
      reflexivity.
    + eexists. split.
      { unfold Accounts.register, Accounts.endpoints. simpl. do 20 right. left. }
      reflexivity.
    + eexists. split.
      { unfold Accounts.register, Accounts.endpoints. simpl. do 21 right. left. }
      reflexivity.
Qed.

(** C7. Once a request has the JSON content type and the parser has
    left a body [b] without an error: the middleware of the logout route
    lets it through to the logout handler whatever [b] is, blank
    included; the middleware of each of the four login steps and of
    refresh answers a blank [b] (missing, or an empty object, among
    others) with a [BadRequest] error, and the handler does not run. *)
Theorem logout_accepts_blank_body :
  forall (hs : Accounts.Handlers) (json : Accounts.JsonParser)
         (req : Http.Request) (b : JS.Value),
    jsonContentType req ->
    json req = inr b ->
    (exists route, routeFor logout route) /\
    (forall route,
        routeFor logout route ->
        Accounts.runChain hs json (Accounts.chain route) req
        = (hs Accounts.Sessions_handlePostSessionsLogout (Accounts.withBody req b),
           Accounts.withBody req b,
           [Accounts.Sessions_handlePostSessionsLogout])) /\
    (forall path, path ∈ loginAndRefresh -> exists route, routeFor path route) /\
    (forall path route,
        path ∈ loginAndRefresh ->
        routeFor path route ->
        Accounts.isBlank b = true ->
        E.name (Accounts.blankBody (Http.get req "content-type")) = E.BadRequest /\
        Accounts.runChain hs json (Accounts.chain route) req
        = (Accounts.NextErr (Accounts.blankBody (Http.get req "content-type")),
           Accounts.withBody req b, [])) /\
    Accounts.isBlank JS.Undefined = true /\
    Accounts.isBlank (JS.Obj []) = true.
Proof.
  intros hs json req b Hjson Hparsed. repeat split.
  - apply routeFor_exists. left. reflexivity.
  - intros route Hroute. rewrite (routeFor_logout route Hroute).
    simpl. unfold Accounts.parseBodyAllowBlank.
    rewrite (getParseBodyFunc_parsed json true req b Hjson Hparsed). simpl.
    destruct (hs Accounts.Sessions_handlePostSessionsLogout
                (Accounts.withBody req b)); reflexivity.
  - intros path Hpath. apply routeFor_exists. right. exact Hpath.
  - destruct (routeFor_loginAndRefresh path route H H0) as [h ->].
    simpl. unfold Accounts.parseBody.
    rewrite (getParseBodyFunc_parsed json false req b Hjson Hparsed).
    simpl. rewrite H1. reflexivity.
Qed.




(** * The properties at work on the sample world *)

(** A client created in the sample world is granted EXTERNAL and nothing else. *)
Lemma createClient_budget_and_role_witness :
  grantedRoles
    (trace (run Sample.env (createClient Sample2.newClient Sample.caller)
              Sample.store))
  = [{| Payload.clientId := "org-1/reporting"; Payload.roleId := EXTERNAL |}].
Proof.
  destruct (createClient_budget_and_role Sample.Store Sample.env
              Sample2.newClient Sample.caller Sample.store)
    as (_ & _ & Hcreated & _).
  exact (proj2 (Hcreated _ eq_refl)).
Defined.

(** The sample client gets the one role its rows name. *)
Lemma addRoles_assigns_roles_witness :
  outcome (run Sample.env
             (addRoles false (dbToApi Sample.imports Sample.foreignClient))
             Sample.store)
  = inr {| Api.Client.id := "cl-9"; Api.Client.organizationId := "org-2";
           Api.Client.name := "globex batch"; Api.Client.reqsPerSec := 10;
           Api.Client.roles := [EXTERNAL] |}.
Proof.
  destruct (addRoles_assigns_roles Sample.Store Sample.env Sample.store)
    as [Hone _].
  specialize (Hone (dbToApi Sample.imports Sample.foreignClient)).
  lazy beta iota zeta delta -[run outcome roleIdsOf sameButRoles] in Hone.
  destruct Hone as (c & Hrun & Hroles & Hsame).
  lazy beta iota zeta delta -[run outcome].
  rewrite Hrun. f_equal.
  destruct c, Hsame as (? & ? & ? & ?). vm_compute in Hroles.
  simpl in *. congruence.
Defined.

(** An authenticated POST without [orgId] fails at once with GET-CLIENTS-BAD-PARAMS. *)
Lemma missing_orgId_is_programmer_fault_witness :
  run Sample.env (postClientHandler Sample.imports Sample2.postRequestNoOrg)
    Sample.store
  = {| outcome := inl badParams; world := Sample.store; trace := [] |}.
Proof.
  destruct (missing_orgId_is_programmer_fault Sample.Store Sample.env
              Sample.imports Sample2.postRequestNoOrg Sample.store eq_refl)
    as (_ & _ & _ & e & Hrun & Herror).
  rewrite Hrun, Herror; [reflexivity |].
  exists Sample.caller. split; reflexivity.
Defined.

(** A caller without the manage grant is refused and nothing is saved. *)
Lemma handlers_authorize_first_witness :
  outcome (run Sample.env
             (postClientHandler Sample.imports Sample2.postRequestElsewhere)
             Sample.store)
  = inl Sample.forbidden /\
  persistedClients
    (trace (run Sample.env
              (postClientHandler Sample.imports Sample2.postRequestElsewhere)
              Sample.store)) = [].
Proof.
  destruct (handlers_authorize_first Sample.Store Sample.env Sample.imports
              Sample2.postRequestElsewhere Sample.store)
    as (_ & _ & Hrefused).
  destruct (Hrefused
              (answered (AuthorizeCallerForRole "org-2" Sample.caller "manage")
                 (inl Sample.forbidden))
              "manage" Sample.forbidden)
    as (_ & Hout & _ & Hnone & _).
  - vm_compute. right. left.
  - reflexivity.
  - split; assumption.
Defined.




(** Two requests for one key: two invocations, two promises. *)
Lemma mockCache_computes_every_time_witness :
  Mocks.twoRequests Mocks.get "organizations" Mocks.slowCompute 0%nat
  = (Mocks.Pending 0, Mocks.Pending 1, 2%nat).
Proof.
  destruct (mockCache_computes_every_time nat Mocks.Promise "organizations"
              Mocks.slowCompute None 0%nat)
    as (_ & _ & _ & _ & Htwice).
  exact (Htwice 0%nat).
Defined.

(** A login request sent as text/plain never reaches its handler. *)
Lemma bad_content_type_is_rejected_witness :
  Accounts.runChain Sample2.handlers Sample2.json
    [Accounts.ParseBody;
     Accounts.Handle Accounts.Sessions_handlePostSessionsLoginEmail]
    (Sample2.loginEmail [("content-type", "text/plain")]
       (JS.Obj [("email", JS.Str "a@b.com")]))
  = (Accounts.NextErr (Accounts.unsupportedMediaType (Some "text/plain")),
     Sample2.loginEmail [("content-type", "text/plain")]
       (JS.Obj [("email", JS.Str "a@b.com")]),
     []).
Proof.
  refine (proj1 (proj2
    (bad_content_type_is_rejected Sample2.handlers Sample2.json
       {| Accounts.verb := Accounts.POST;
          Accounts.paths := ["/accounts/v1/sessions/login/email"];
          Accounts.chain :=
            [Accounts.ParseBody;
             Accounts.Handle Accounts.Sessions_handlePostSessionsLoginEmail] |}
       (Sample2.loginEmail [("content-type", "text/plain")]
          (JS.Obj [("email", JS.Str "a@b.com")]))
       _ eq_refl _))).
  - unfold Accounts.register, Accounts.endpoints. simpl. do 17 right. left.
  - right. exists "text/plain". split; [reflexivity | discriminate].
Defined.

(** A logout request without a body reaches the logout handler. *)
Lemma logout_accepts_blank_body_witness :
  Accounts.runChain Sample2.handlers Sample2.json
    [Accounts.ParseBodyAllowBlank;
     Accounts.Handle Accounts.Sessions_handlePostSessionsLogout]
    (Sample2.logoutRequest [("content-type", "Application/JSON")] JS.Undefined)
  = (Accounts.Sent 200 JS.Null,
     Accounts.withBody
       (Sample2.logoutRequest [("content-type", "Application/JSON")] JS.Undefined)
       JS.Undefined,
     [Accounts.Sessions_handlePostSessionsLogout]).
Proof.
  destruct (logout_accepts_blank_body Sample2.handlers Sample2.json
              (Sample2.logoutRequest [("content-type", "Application/JSON")]
                 JS.Undefined)
              JS.Undefined)
    as (_ & Hlogout & _).
  - exists "Application/JSON". split; reflexivity.
  - reflexivity.
  - apply (Hlogout
             {| Accounts.verb := Accounts.POST;
                Accounts.paths := [logout];
                Accounts.chain :=
                  [Accounts.ParseBodyAllowBlank;
                   Accounts.Handle Accounts.Sessions_handlePostSessionsLogout] |}).
    split; [| reflexivity].
    unfold Accounts.register, Accounts.endpoints. simpl. do 22 right. left.
Defined.


(** * Further properties of the client handlers *)

(** Answer the awaited calls as the hypotheses say. *)
Ltac told :=
  repeat match goal with
         | H : ?env ?c ?w = _ |- context [?env ?c ?w] => rewrite H; simpl
         end.

(** Open a handler for a request that reaches its body. *)
Ltac reached Hreach :=
  destruct Hreach as (Hauth & Hassert & Horg & Hnonempty);
  unfold getClientsForOrgHandler, postClientHandler, assertAuthdReq,
    orgIdOf, clientIdOf in *;
  simpl; rewrite Hauth; simpl; rewrite Hassert, Horg; simpl;
  apply String.eqb_neq in Hnonempty; rewrite Hnonempty; simpl.

Section Lookup.

Context {W : Type} (env : Env W) (L : Imports).

(** The organization is looked up before the caller is authorized: when
    that lookup is refused, either handler ends with its error having
    made no other call. *)
Theorem organization_is_checked_first :
  forall (req : Http.Request) (auth : Auth.ReqInfo) (organizationId : string)
         (w w' : W) (e : E.HttpError),
    reaches L req auth organizationId ->
    env (IoGetOrganization organizationId) w = (inl e, w') ->
    run env (getClientsForOrgHandler L req) w
    = {| outcome := inl e; world := w';
         trace := [answered (IoGetOrganization organizationId) (inl e)] |} /\
    (forall clientName,
        PostClientValidator (Http.body req) = Some clientName ->
        run env (postClientHandler L req) w
        = {| outcome := inl e; world := w';
             trace := [answered (IoGetOrganization organizationId) (inl e)] |}).
Proof.
  intros req auth organizationId w w' e Hreach Hrefused.
  reached Hreach. told. split; [reflexivity |].
  intros clientName ->. simpl. told. reflexivity.
Qed.

End Lookup.

Section Responses.

Context {W : Type} (env : Env W) (L : Imports).

(** A plural response of [getClientsForOrgHandler] is a 200 built from
    one answer of the data layer for the clients of the organization and
    one answer for the roles of all of them: it keeps whatever else the
    first answer carried, has one client per row and in row order, each
    the translated row with the roles of its own rows. *)
Theorem list_response_follows_rows :
  forall (req : Http.Request) (w : W) (resp : Http.Response)
         (others : list (string * JS.Value)) (cs : list Api.Client.t),
    outcome (run env (getClientsForOrgHandler L req) w) = inr resp ->
    Http.sent resp = Http.Many others cs ->
    Http.status resp = 200 /\
    JS.falsyStr (clientIdOf req) = true /\
    exists organizationId clients rows,
      orgIdOf req = Some organizationId /\
      answered (IoGetClientsByOrg organizationId) (inr clients)
        ∈ trace (run env (getClientsForOrgHandler L req) w) /\
      answered
        (IoGetClientRoles (Api.Client.id <$> (dbToApi L <$> data clients)))
        (inr rows)
        ∈ trace (run env (getClientsForOrgHandler L req) w) /\
      others = rest clients /\
      length cs = length (data clients) /\
      forall (i : nat) (row : Db.Client.t),
        data clients !! i = Some row ->
        exists c,
          cs !! i = Some c /\
          sameButRoles (dbToApi L row) c /\
          Api.Client.roles c
          = roleIdsOf (data rows) (Api.Client.id (dbToApi L row)).
Proof.
  intros req w resp others cs.
  prelude L req; try discriminate.
  answer; [discriminate |].
  answer; [discriminate |].
  destruct (Http.params req !! "id") as [clientId |] eqn:Hid; simpl.
  - destruct (String.eqb clientId "") eqn:Hblank; simpl.
    + answer as clients; [discriminate |].
      answer as rows; [discriminate |].
      intros [= <-] [= <- <-]. split; [reflexivity |]. split; [reflexivity |].
      exists organizationId, clients, rows.
      split; [reflexivity |]. split; [here |]. split; [here |].
      split; [reflexivity |]. split; [rewrite !length_fmap; reflexivity |].
      intros i row Hrow. exists (add rows (dbToApi L row)). split.
      * rewrite !list_lookup_fmap, Hrow. reflexivity.
      * split; [apply add_roles | reflexivity].
    + explore; try discriminate. intros [= <-]; discriminate.
  - answer as clients; [discriminate |].
    answer as rows; [discriminate |].
    intros [= <-] [= <- <-]. split; [reflexivity |]. split; [reflexivity |].
    exists organizationId, clients, rows.
    split; [reflexivity |]. split; [here |]. split; [here |].
    split; [reflexivity |]. split; [rewrite !length_fmap; reflexivity |].
    intros i row Hrow. exists (add rows (dbToApi L row)). split.
    + rewrite !list_lookup_fmap, Hrow. reflexivity.
    + split; [apply add_roles | reflexivity].
Qed.

(** [getClientsForOrgHandler] only reads: it never calls [io.save]. *)
Theorem get_handler_is_read_only :
  forall (req : Http.Request) (w : W) (x : Entry),
    x ∈ trace (run env (getClientsForOrgHandler L req) w) ->
    isSave x = false.
Proof.
  intros req w x.
  prelude L req; try (intros Hin; inversion Hin; fail).
  explore; intros Hin; members Hin; reflexivity.
Qed.

(** A 201 of [postClientHandler] comes after exactly eight calls, each
    answered, in this order: the organization lookup, the authorization,
    the log line, the draw of 32 bytes, their hash at cost 10, the save of
    the client, the save of its EXTERNAL role, and the query for the roles
    of the saved row. The response carries that row as translated, with
    the roles the last query returned, and the hex of the bytes drawn. *)
Theorem created_response_follows_calls :
  forall (req : Http.Request) (w : W) (resp : Http.Response),
    outcome (run env (postClientHandler L req) w) = inr resp ->
    exists auth organizationId clientName o bytes h row role rows,
      reaches L req auth organizationId /\
      PostClientValidator (Http.body req) = Some clientName /\
      trace (run env (postClientHandler L req) w)
      = [answered (IoGetOrganization organizationId) (inr o);
         answered (AuthorizeCallerForRole organizationId auth "manage") (inr tt);
         answered (LogDebug "Generating client secret") (inr tt);
         answered (RandomBytes 32) (inr bytes);
         answered (BcryptHash (JS.toHex bytes) 10) (inr h);
         answered
           (IoSaveClient
              {| Payload.organizationId := organizationId;
                 Payload.name := clientName;
                 Payload.secretBcrypt := h;
                 Payload.reqsPerSec := 10 |} auth)
           (inr row);
         answered
           (IoSaveClientRole
              {| Payload.clientId := Db.Client.id row;
                 Payload.roleId := EXTERNAL |} auth)
           (inr role);
         answered (IoGetClientRoles [Api.Client.id (dbToApi L row)]) (inr rows)]
      /\
      resp = {| Http.status := 201;
                Http.sent := Http.SingleWithSecret (add rows (dbToApi L row))
                               (JS.toHex bytes) |}.
Proof.
  intros req w resp.
  prelude L req; try discriminate.
  destruct (PostClientValidator (Http.body req)) as [clientName |] eqn:Hname;
    simpl; [| discriminate].
  answer as o; [discriminate |].
  answer as ok; [discriminate |].
  answer as logged; [discriminate |].
  answer as bytes; [discriminate |].
  answer as h; [discriminate |].
  answer as row; [discriminate |].
  answer as role; [discriminate |].
  answer as rows; [discriminate |].
  intros [= <-]. destruct ok, logged.
  exists auth, organizationId, clientName, o, bytes, h, row, role, rows.
  split; [| split; [reflexivity | split; reflexivity]].
  repeat split; try assumption.
  intros ->. discriminate.
Qed.

End Responses.

(** ** Validation *)

(** What [PostClientValidator] asks of a body: [data.type] is the string
    "clients" and [data.name] is a string; nothing else is looked at. *)
Lemma PostClientValidator_spec (body : JS.Value) (clientName : string) :
  PostClientValidator body = Some clientName <->
  JS.prop (JS.prop body "data") "type" = JS.Str "clients" /\
  JS.prop (JS.prop body "data") "name" = JS.Str clientName.
Proof.
  unfold PostClientValidator.
  destruct (JS.prop (JS.prop body "data") "type") as [| | | | t | |];
    try (split; [discriminate | intros [? ?]; discriminate]).
  destruct (JS.prop (JS.prop body "data") "name") as [| | | | n | |];
    try (split; [discriminate | intros [? ?]; discriminate]).
  destruct (String.eqb t "clients") eqn:Ht.
  - apply String.eqb_eq in Ht. subst t. split.
    + intros [= ->]. split; reflexivity.
    + intros [_ [= ->]]. reflexivity.
  - apply String.eqb_neq in Ht. split; [discriminate |].
    intros [[= ->] _]. contradiction.
Qed.

Section Failures.

Context {W : Type} (env : Env W) (L : Imports).

(** A body that is not a client document is turned down before anything
    else happens: [postClientHandler] fails with the error made from the
    body, and neither looks up the organization nor asks for
    authorization. *)
Theorem invalid_body_is_rejected_first :
  forall (req : Http.Request) (auth : Auth.ReqInfo) (organizationId : string)
         (w : W),
    reaches L req auth organizationId ->
    (forall clientName,
        ~ (JS.prop (JS.prop (Http.body req) "data") "type" = JS.Str "clients" /\
           JS.prop (JS.prop (Http.body req) "data") "name" = JS.Str clientName)) ->
    run env (postClientHandler L req) w
    = {| outcome := inl (InvalidBodyError L (Http.body req)); world := w;
         trace := [] |}.
Proof.
  intros req auth organizationId w Hreach Hinvalid.
  reached Hreach.
  destruct (PostClientValidator (Http.body req)) as [clientName |] eqn:Hname;
    [| reflexivity].
  exfalso. apply (Hinvalid clientName).
  apply PostClientValidator_spec. exact Hname.
Qed.

(** Nothing is rolled back: when the save of the role is refused,
    [createClient], and with it [postClientHandler], fails with that
    error while the client row saved just before stays saved, without a
    role. *)
Theorem refused_role_save_leaves_client :
  forall (w : W) (x : Entry) (e : E.HttpError),
    isRoleSave x = true ->
    refusal x = Some e ->
    (forall newClient auth,
        x ∈ trace (run env (createClient newClient auth) w) ->
        outcome (run env (createClient newClient auth) w) = inl e /\
        grantedRoles (trace (run env (createClient newClient auth) w)) = [] /\
        exists p row,
          persistedClients (trace (run env (createClient newClient auth) w))
          = [(p, row)]) /\
    (forall req,
        x ∈ trace (run env (postClientHandler L req) w) ->
        outcome (run env (postClientHandler L req) w) = inl e /\
        grantedRoles (trace (run env (postClientHandler L req) w)) = [] /\
        exists p row,
          persistedClients (trace (run env (postClientHandler L req) w))
          = [(p, row)]).
Proof.
  intros w x e Hrole Hrefusal. split.
  - intros newClient auth. unfold createClient; simpl.
    explore; intros Hin; members Hin; try discriminate.
    injection Hrefusal as <-. split; [reflexivity |].
    split; [reflexivity |]. eexists _, _. reflexivity.
  - intros req. prelude L req; try (intros Hin; inversion Hin; fail).
    destruct (PostClientValidator (Http.body req)) as [clientName |] eqn:Hname;
      simpl; [| intros Hin; inversion Hin].
    explore; intros Hin; members Hin; try discriminate.
    injection Hrefusal as <-. split; [reflexivity |].
    split; [reflexivity |]. eexists _, _. reflexivity.
Qed.


End Failures.

(** ** More on [addRoles] and on the secret *)

Lemma add_disregards_roles (rows : Collection Db.ClientRole.t)
  (c c' : Api.Client.t) :
  sameButRoles c c' -> add rows c = add rows c'.
Proof.
  destruct c, c'. unfold sameButRoles, add, Api.Client.setRoles. simpl.
  intros (-> & -> & -> & ->). reflexivity.
Qed.

(** [addRoles] overwrites: the roles a client carries going in have no
    effect on the call made or on the result, so a client that already
    went through [addRoles] comes out of a second pass, answered alike,
    as it came out of the first. *)
Theorem addRoles_overwrites :
  forall (W : Type) (env : Env W) (w : W),
    (forall c c' : Api.Client.t,
        sameButRoles c c' ->
        run env (addRoles false c) w = run env (addRoles false c') w) /\
    (forall cs cs' : list Api.Client.t,
        Forall2 sameButRoles cs cs' ->
        run env (addRoles true cs) w = run env (addRoles true cs') w) /\
    (forall (rows : Collection Db.ClientRole.t) (c : Api.Client.t),
        add rows (add rows c) = add rows c).
Proof.
  intros W env w. split; [| split].
  - intros c c' Hsame. simpl.
    destruct Hsame as (Hid & Hrest). rewrite Hid.
    destruct (env (IoGetClientRoles [Api.Client.id c]) w) as [[e | rows] w'];
      simpl; [reflexivity |].
    rewrite (add_disregards_roles rows c' c); [reflexivity |].
    destruct Hrest as (? & ? & ?). repeat split; congruence.
  - intros cs cs' Hsame. simpl.
    assert (Hids : Api.Client.id <$> cs = Api.Client.id <$> cs').
    { induction Hsame as [| c c' cs cs' (Hid & _) _ IH]; [reflexivity |].
      rewrite !fmap_cons, Hid, IH. reflexivity. }
    rewrite Hids.
    destruct (env (IoGetClientRoles (Api.Client.id <$> cs')) w)
      as [[e | rows] w']; simpl; [reflexivity |].
    do 2 f_equal. clear Hids.
    induction Hsame as [| c c' cs cs' Hc _ IH]; [reflexivity |].
    rewrite !fmap_cons, (add_disregards_roles rows c c' Hc), IH. reflexivity.
  - intros rows c. apply add_disregards_roles.
    destruct (add_roles rows c) as [_ (? & ? & ? & ?)]. repeat split; congruence.
Qed.

Lemma hexDigit_is_hex (n : N) : isHexDigit (JS.hexDigit n) = true.
Proof.
  destruct n as [| p]; [reflexivity |].
  destruct p as [p | p |]; [| | reflexivity];
    (destruct p as [p | p |]; [| | reflexivity]);
    (destruct p as [p | p |]; [| | reflexivity]);
    (destruct p as [p | p |]; reflexivity).
Qed.

Lemma toHex_all_hex (bytes : list byte) : allHexDigits (JS.toHex bytes) = true.
Proof.
  induction bytes as [| b bytes IH]; simpl; [reflexivity |].
  rewrite !hexDigit_is_hex, IH. reflexivity.
Qed.

Lemma fromHex_toHex_byte (b : byte) :
  Byte.of_N (16 * hexValue (JS.hexDigit (Byte.to_N b / 16))
             + hexValue (JS.hexDigit (Byte.to_N b mod 16)))%N
  = Some b.
Proof. destruct b; vm_compute; reflexivity. Qed.

(** Reading the hex string back gives the bytes it was made from. *)
Lemma fromHex_toHex (bytes : list byte) : fromHex (JS.toHex bytes) = bytes.
Proof.
  induction bytes as [| b bytes IH]; [reflexivity |].
  cbn [JS.toHex fromHex]. rewrite fromHex_toHex_byte, IH. reflexivity.
Qed.

(** The secret [createClient] returns is the random draw in lowercase
    hexadecimal: two digits per byte, so 64 characters for a draw of 32
    bytes, and two different draws never give the same secret. *)
Theorem secret_is_hex_of_draw :
  forall (W : Type) (env : Env W) (newClient : NewClient)
         (auth : Auth.ReqInfo) (w : W) (created : CreatedClient),
    outcome (run env (createClient newClient auth) w) = inr created ->
    exists bytes,
      answered (RandomBytes 32) (inr bytes)
        ∈ trace (run env (createClient newClient auth) w) /\
      secret created = JS.toHex bytes /\
      allHexDigits (secret created) = true /\
      String.length (secret created) = (2 * length bytes)%nat /\
      (length bytes = 32%nat -> String.length (secret created) = 64%nat) /\
      (forall bytes', JS.toHex bytes' = secret created -> bytes' = bytes).
Proof.
  intros W env newClient auth w created Hcreated.
  destruct (createClient_trace env newClient auth w)
    as [(e & Ho & _) | (bytes & h & row & role & Ho & Ht)]; cbv zeta in *.
  - congruence.
  - rewrite Ho in Hcreated. injection Hcreated as <-.
    exists bytes. rewrite Ht. cbn [secret].
    split; [here |]. split; [reflexivity |].
    split; [apply toHex_all_hex |]. split; [apply toHex_length |].
    split.
    + intros Hlen. rewrite toHex_length, Hlen. reflexivity.
    + intros bytes' Heq. rewrite <- (fromHex_toHex bytes'), Heq.
      apply fromHex_toHex.
Qed.

(** * Further properties of the routes *)

Lemma toLowerCase_length (s : string) :
  String.length (JS.toLowerCase s) = String.length s.
Proof. induction s as [| c s IH]; simpl; [reflexivity | rewrite IH; reflexivity]. Qed.

Lemma toLowerCase_empty (s : string) : JS.toLowerCase s = "" -> s = "".
Proof. destruct s; [reflexivity | discriminate]. Qed.

Lemma plainSegment_spec (x : string) :
  plainSegment x = true -> String.eqb x "*" = false /\ String.eqb x "" = false.
Proof.
  unfold plainSegment. intros H. apply andb_true_iff in H as [H1 H2].
  apply negb_true_iff in H1, H2. split; assumption.
Qed.

Section Patterns.

Import Accounts Router.

Lemma matchSegments_plain (x : string) (ps segs : list string) :
  plainSegment x = true ->
  matchSegments (x :: ps) segs =
  match segs with
  | [] => false
  | seg :: segs' =>
      (if isParam x then negb (String.eqb seg "")
       else String.eqb (JS.toLowerCase x) (JS.toLowerCase seg))
      && matchSegments ps segs'
  end.
Proof.
  intros Hx. apply plainSegment_spec in Hx as [Hstar _].
  simpl. rewrite Hstar. reflexivity.
Qed.

(** A plain pattern segment does not take the empty path segment. *)
Lemma plain_refuses_empty (x : string) :
  plainSegment x = true ->
  (if isParam x then negb (String.eqb "" "")
   else String.eqb (JS.toLowerCase x) (JS.toLowerCase "")) = false.
Proof.
  intros Hx. apply plainSegment_spec in Hx as [_ Hempty].
  destruct (isParam x); [reflexivity |].
  simpl. apply String.eqb_neq. intros Hlow.
  apply toLowerCase_empty in Hlow. subst x. discriminate.
Qed.

(** Two plain patterns that take the same segments meet. *)
Lemma matchSegments_meet (ps qs segs : list string) :
  forallb plainSegment ps = true -> forallb plainSegment qs = true ->
  matchSegments ps segs = true -> matchSegments qs segs = true ->
  patternsMeet ps qs = true.
Proof.
  revert qs segs; induction ps as [| p ps IH]; intros qs segs Hps Hqs Hp Hq.
  - destruct qs as [| q qs]; [reflexivity |].
    simpl in Hqs. apply andb_true_iff in Hqs as [Hplain _].
    rewrite (matchSegments_plain q qs segs Hplain) in Hq.
    destruct segs as [| seg [| seg' segs]]; simpl in Hp; try discriminate.
    apply String.eqb_eq in Hp. subst seg.
    rewrite (plain_refuses_empty q Hplain) in Hq. discriminate.
  - simpl in Hps. apply andb_true_iff in Hps as [Hplain Hps].
    rewrite (matchSegments_plain p ps segs Hplain) in Hp.
    destruct segs as [| seg segs]; [discriminate |].
    apply andb_true_iff in Hp as [Hseg Hp].
    destruct qs as [| q qs].
    + simpl in Hq. destruct segs; [| discriminate].
      apply String.eqb_eq in Hq. subst seg.
      rewrite (plain_refuses_empty p Hplain) in Hseg. discriminate.
    + simpl in Hqs. apply andb_true_iff in Hqs as [Hplain' Hqs].
      rewrite (matchSegments_plain q qs _ Hplain') in Hq.
      apply andb_true_iff in Hq as [Hseg' Hq].
      simpl. rewrite (IH qs segs Hps Hqs Hp Hq), andb_true_r.
      unfold segmentsMeet.
      destruct (isParam p); [reflexivity |].
      destruct (isParam q); [reflexivity |]. simpl.
      apply String.eqb_eq in Hseg, Hseg'. apply String.eqb_eq. congruence.
Qed.

(** The shape of an endpoint pattern. *)
Lemma endpointPattern_segments (pattern : string) :
  endpointPattern pattern = true ->
  exists x more,
    segments pattern = "" :: "accounts" :: "v1" :: x :: more /\
    forallb plainSegment (x :: more) = true.
Proof.
  unfold endpointPattern.
  destruct (segments pattern) as [| root [| a [| v [| x more]]]];
    try discriminate.
  intros H. apply andb_true_iff in H as [H Hplain].
  apply andb_true_iff in H as [H Hv]. apply andb_true_iff in H as [Hroot Ha].
  apply String.eqb_eq in Hroot, Ha, Hv. subst.
  exists x, more. split; [reflexivity | exact Hplain].
Qed.

(** What an endpoint pattern takes lies under the prefix. *)
Lemma endpointPattern_under (pattern path : string) :
  endpointPattern pattern = true ->
  matchPath pattern path = true -> underAccounts path = true.
Proof.
  intros Hshape. apply endpointPattern_segments in Hshape
    as (x & more & Hsegs & Hplain).
  unfold underAccounts, matchPath. rewrite Hsegs.
  simpl in Hplain. apply andb_true_iff in Hplain as [Hx _].
  apply plainSegment_spec in Hx as [Hstar _].
  change (segments "/accounts/v1/*") with ["" ; "accounts"; "v1"; "*"].
  destruct (segments path) as [| s0 [| s1 [| s2 [| s3 ss]]]];
    simpl; rewrite ?Hstar, ?andb_false_r; simpl; try discriminate.
  intros H. apply andb_true_iff in H as [H0 H].
  apply andb_true_iff in H as [H1 H]. apply andb_true_iff in H as [H2 _].
  rewrite H0, H1, H2. reflexivity.
Qed.

(** Two endpoint patterns that take the same path meet. *)
Lemma endpointPattern_meet (p q path : string) :
  endpointPattern p = true -> endpointPattern q = true ->
  matchPath p path = true -> matchPath q path = true ->
  patternsMeet (segments p) (segments q) = true.
Proof.
  intros Hp Hq.
  apply endpointPattern_segments in Hp as (x & more & Hsp & Hplain).
  apply endpointPattern_segments in Hq as (y & more' & Hsq & Hplain').
  unfold matchPath. rewrite Hsp, Hsq.
  destruct (segments path) as [| s0 [| s1 [| s2 ss]]]; simpl;
    rewrite ?andb_false_r; try discriminate.
  intros H H'. apply andb_true_iff in H as [_ H], H' as [_ H'].
  apply andb_true_iff in H as [_ H], H' as [_ H'].
  apply andb_true_iff in H as [_ H], H' as [_ H'].
  unfold segmentsMeet. simpl.
  change (patternsMeet (x :: more) (y :: more') = true).
  apply (matchSegments_meet (x :: more) (y :: more') ss Hplain Hplain' H H').
Qed.

End Patterns.

Section Disjoint.

Import Accounts Router.

Lemma verbMatches_meet (v1 v2 : Verb) (method : string) :
  verbMatches v1 method = true -> verbMatches v2 method = true ->
  verbsMeet v1 v2 = true.
Proof.
  destruct v1, v2; simpl; try reflexivity; intros H1 H2;
    repeat match goal with
           | H : _ || _ = true |- _ => apply orb_true_iff in H as [H | H]
           | H : String.eqb _ _ = true |- _ => apply String.eqb_eq in H
           end; subst; discriminate.
Qed.

(** The table of endpoints, checked row by row: every pattern has the
    endpoint shape, no two different rows meet, and no row occurs twice. *)
Lemma endpoints_patterns :
  forall r p, r ∈ endpoints -> p ∈ paths r -> endpointPattern p = true.
Proof.
  assert (Htable :
    forallb (fun r => forallb endpointPattern (paths r)) endpoints = true)
    by (vm_compute; reflexivity).
  intros r p Hr Hp. rewrite forallb_forall in Htable.
  apply list_elem_of_In in Hr, Hp.
  specialize (Htable r Hr). rewrite forallb_forall in Htable.
  apply Htable. exact Hp.
Qed.

Lemma endpoints_apart :
  forall r1 r2,
    r1 ∈ endpoints -> r2 ∈ endpoints -> routesMeet r1 r2 = true -> r1 = r2.
Proof.
  assert (Htable :
    forallb
      (fun r1 =>
         forallb (fun r2 => implb (routesMeet r1 r2) (bool_decide (r1 = r2)))
           endpoints)
      endpoints = true)
    by (vm_compute; reflexivity).
  intros r1 r2 Hr1 Hr2 Hmeet. rewrite forallb_forall in Htable.
  apply list_elem_of_In in Hr1, Hr2.
  specialize (Htable r1 Hr1). rewrite forallb_forall in Htable.
  specialize (Htable r2 Hr2). rewrite Hmeet in Htable. simpl in Htable.
  apply bool_decide_eq_true in Htable. exact Htable.
Qed.


Lemma routeMatches_meet (r1 r2 : Route) (req : Http.Request) :
  r1 ∈ endpoints -> r2 ∈ endpoints ->
  routeMatches r1 req = true -> routeMatches r2 req = true ->
  routesMeet r1 r2 = true.
Proof.
  intros Hr1 Hr2 H1 H2. unfold routeMatches in H1, H2.
  apply andb_true_iff in H1 as [Hv1 Hp1], H2 as [Hv2 Hp2].
  unfold routesMeet. rewrite (verbMatches_meet _ _ _ Hv1 Hv2). simpl.
  apply existsb_exists in Hp1 as (p1 & Hin1 & Hm1).
  apply existsb_exists in Hp2 as (p2 & Hin2 & Hm2).
  apply existsb_exists. exists p1. split; [exact Hin1 |].
  apply existsb_exists. exists p2. split; [exact Hin2 |].
  apply (endpointPattern_meet p1 p2 (Http.path req)); try assumption.
  - apply (endpoints_patterns r1); [exact Hr1 | apply list_elem_of_In; exact Hin1].
  - apply (endpoints_patterns r2); [exact Hr2 | apply list_elem_of_In; exact Hin2].
Qed.

Lemma routeMatches_unique (req : Http.Request) (r1 r2 : Route) :
  r1 ∈ endpoints -> r2 ∈ endpoints ->
  routeMatches r1 req = true -> routeMatches r2 req = true ->
  r1 = r2.
Proof.
  intros Hr1 Hr2 H1 H2.
  apply endpoints_apart; try assumption.
  apply (routeMatches_meet r1 r2 req); assumption.
Qed.

(** No request is taken by two endpoints: the order in which [register]
    adds its endpoints decides nothing. *)
Theorem endpoints_are_disjoint :
  forall (req : Http.Request) (r1 r2 : Route),
    r1 ∈ endpoints -> r2 ∈ endpoints ->
    routeMatches r1 req = true -> routeMatches r2 req = true ->
    r1 = r2.
Proof. exact routeMatches_unique. Qed.

(** The module takes nothing from outside its prefix: an endpoint that
    matches a request finds its path under /accounts/v1/. *)
Lemma endpoint_under_prefix (r : Route) (req : Http.Request) :
  r ∈ endpoints -> routeMatches r req = true ->
  underAccounts (Http.path req) = true.
Proof.
  intros Hr Hmatch. unfold routeMatches in Hmatch.
  apply andb_true_iff in Hmatch as [_ Hpaths].
  apply existsb_exists in Hpaths as (p & Hin & Hm).
  apply (endpointPattern_under p); [| exact Hm].
  apply (endpoints_patterns r); [exact Hr | apply list_elem_of_In; exact Hin].
Qed.

End Disjoint.

Section Dispatching.

Import Accounts Router.

Context (hs : Handlers) (json : JsonParser).

(** The module leaves every request outside /accounts/v1/ alone: no
    middleware of it runs, and the request goes on as it came to what is
    mounted after the module. *)
Theorem outside_prefix_passes_on :
  forall req : Http.Request,
    underAccounts (Http.path req) = false ->
    dispatch hs json register req = (PassedOn req, []).
Proof.
  intros req Houtside.
  rewrite <- (app_nil_r register).
  rewrite (dispatch_skip hs json register [] req); [reflexivity |].
  intros r Hr. unfold register in Hr. apply elem_of_app in Hr as [Hr | Hr].
  - destruct (routeMatches r req) eqn:Hmatch; [| reflexivity].
    rewrite (endpoint_under_prefix r req Hr Hmatch) in Houtside. discriminate.
  - apply list_elem_of_singleton in Hr. subst r.
    unfold routeMatches, fallthrough. simpl.
    unfold underAccounts in Houtside. rewrite Houtside. reflexivity.
Qed.



(** The endpoints that are added without a body parser hand the request
    to their handler as it arrived, whatever its content type and body:
    they are the GET and DELETE endpoints and, alone among those that
    take a body, PATCH /accounts/v1/org-memberships/:id. *)
Theorem unparsed_endpoints :
  forall (req : Http.Request) (r : Route),
    r ∈ endpoints ->
    usesBodyParser r = false ->
    (verb r = GET \/ verb r = DELETE \/
     (verb r = PATCH /\ paths r = ["/accounts/v1/org-memberships/:id"])) /\
    exists h,
      chain r = [Handle h] /\
      runChain hs json (chain r) req = (hs h req, req, [h]).
Proof.
  intros req r Hr Hparser. unfold endpoints in Hr.
  members Hr; try discriminate Hparser;
    (split; [auto | eexists; split; [reflexivity | apply runChain_handler]]).
Qed.

(** Conversely every POST endpoint and every other PATCH endpoint has a
    body parser in front. *)
Lemma parsed_endpoints (r : Route) :
  r ∈ endpoints ->
  verb r = POST \/
  (verb r = PATCH /\ paths r <> ["/accounts/v1/org-memberships/:id"]) ->
  usesBodyParser r = true.
Proof.
  intros Hr Hverb. unfold endpoints in Hr.
  members Hr; try reflexivity;
    destruct Hverb as [Hv | [Hv Hp]]; try discriminate Hv;
    exfalso; apply Hp; reflexivity.
Qed.

End Dispatching.

(** * Further properties of the body parsers *)

Lemma toLowerCase_app (s t : string) :
  JS.toLowerCase (s ++ t) = JS.toLowerCase s ++ JS.toLowerCase t.
Proof. induction s as [| c s IH]; simpl; [reflexivity | rewrite IH; reflexivity]. Qed.

Lemma string_app_length (s t : string) :
  String.length (s ++ t) = (String.length s + String.length t)%nat.
Proof. induction s as [| c s IH]; simpl; [reflexivity | rewrite IH; reflexivity]. Qed.

(** A value with a parameter after the media type is not the media type. *)
Lemma parameters_spoil_content_type (value suffix : string) :
  JS.toLowerCase value = "application/json" -> suffix <> "" ->
  JS.toLowerCase (value ++ suffix) <> "application/json".
Proof.
  intros Hvalue Hsuffix Heq.
  apply (f_equal String.length) in Heq.
  rewrite toLowerCase_length, string_app_length in Heq.
  apply (f_equal String.length) in Hvalue. rewrite toLowerCase_length in Hvalue.
  rewrite Hvalue in Heq. simpl in Heq.
  destruct suffix; [contradiction | simpl in Heq; lia].
Qed.

Lemma isBlank_false_iff (b : JS.Value) :
  Accounts.isBlank b = false <->
  (exists s, b = JS.Str s /\ s <> "") \/
  (exists x xs, b = JS.Arr (x :: xs)) \/
  (exists p ps, b = JS.Obj (p :: ps)).
Proof.
  unfold Accounts.isBlank. split.
  - destruct b as [| | flag | n | s | [| x xs] | [| p ps]]; simpl;
      try discriminate; try (destruct flag; discriminate);
      try (rewrite orb_true_r; discriminate).
    + destruct s; [discriminate |]. intros _. left. eexists. split; [reflexivity |].
      discriminate.
    + intros _. right. left. eauto.
    + intros _. right. right. eauto.
  - intros [(s & -> & Hs) | [(x & xs & ->) | (p & ps & ->)]]; simpl;
      try reflexivity.
    destruct s; [contradiction | reflexivity].
Qed.

Section Parsing.

Import Accounts.

Context (hs : Handlers) (json : JsonParser).

(** The parsers compare the whole header value: a content type that
    carries a parameter, such as a charset after application/json, is
    turned down as unsupported like any other, on every route with a body
    parser and before any handler runs. *)
Theorem content_type_parameters_rejected :
  forall (req : Http.Request) (r : Route) (value suffix : string),
    r ∈ register ->
    usesBodyParser r = true ->
    Http.get req "content-type" = Some (value ++ suffix) ->
    JS.toLowerCase value = "application/json" ->
    suffix <> "" ->
    runChain hs json (chain r) req
    = (NextErr (unsupportedMediaType (Some (value ++ suffix))), req, []).
Proof.
  intros req r value suffix _ Hparser Hheader Hvalue Hsuffix.
  rewrite <- Hheader.
  apply runChain_bad_content_type; [| apply usesBodyParser_chain; exact Hparser].
  right. exists (value ++ suffix). split; [exact Hheader |].
  apply parameters_spoil_content_type; assumption.
Qed.


(** Behind [parseBody] a handler sees only bodies with something in
    them: a non-empty string, array or object, which it finds in
    [req.body] of an otherwise unchanged request. Every other parsed
    value, among them [null], [false], [true], every number, the empty
    string, [[]] and [{}], counts as blank and is answered with
    [BadRequest] instead. *)
Theorem parseBody_hands_over_filled_bodies :
  forall (req : Http.Request) (h : HandlerId) (b : JS.Value),
    jsonContentType req ->
    json req = inr b ->
    (isBlank b = false <->
     (exists s, b = JS.Str s /\ s <> "") \/
     (exists x xs, b = JS.Arr (x :: xs)) \/
     (exists p ps, b = JS.Obj (p :: ps))) /\
    runChain hs json [ParseBody; Handle h] req
    = (if isBlank b
       then (NextErr (blankBody (Http.get req "content-type")),
             withBody req b, [])
       else (hs h (withBody req b), withBody req b, [h])) /\
    Http.body (withBody req b) = b /\
    Http.headers (withBody req b) = Http.headers req /\
    Http.params (withBody req b) = Http.params req /\
    Http.auth (withBody req b) = Http.auth req /\
    Http.method (withBody req b) = Http.method req /\
    Http.path (withBody req b) = Http.path req.
Proof.
  intros req h b Hjson Hparsed. split; [apply isBlank_false_iff |].
  split; [| repeat split].
  simpl. unfold parseBody.
  rewrite (getParseBodyFunc_parsed json false req b Hjson Hparsed). simpl.
  destruct (isBlank b); [reflexivity |].
  destruct (hs h (withBody req b)); reflexivity.
Qed.

End Parsing.

Section Memberships.

Import Accounts Router.

Context (hs : Handlers) (json : JsonParser).


End Memberships.

(** * The further properties at work on the sample world *)

(** org-3 does not exist: the request ends with the lookup's error. *)
Lemma organization_is_checked_first_witness :
  run Sample.env (getClientsForOrgHandler Sample.imports Sample3.getNowhere)
    Sample.store
  = {| outcome := inl (Sample.notFound "organization"); world := Sample.store;
       trace := [answered (IoGetOrganization "org-3")
                   (inl (Sample.notFound "organization"))] |}.
Proof.
  refine (proj1 (organization_is_checked_first Sample.env Sample.imports
                   Sample3.getNowhere Sample.caller "org-3" Sample.store
                   Sample.store (Sample.notFound "organization") _ eq_refl)).
  repeat split. discriminate.
Defined.

(** The list of org-2's clients: one client, with its role. *)
Lemma list_response_follows_rows_witness :
  Http.status Sample3.listResponse = 200 /\
  JS.falsyStr (clientIdOf Sample3.getList) = true.
Proof.
  destruct (list_response_follows_rows Sample.env Sample.imports
              Sample3.getList Sample2.storeWithGrant Sample3.listResponse
              [("t", JS.Str "collection")] [Sample3.listedClient]
              eq_refl eq_refl)
    as (Hstatus & Hplural & _).
  split; assumption.
Defined.

(** The lookup of org-3 is not a save. *)
Lemma get_handler_is_read_only_witness :
  isSave (answered (IoGetOrganization "org-3")
            (inl (Sample.notFound "organization"))) = false.
Proof.
  apply (get_handler_is_read_only Sample.env Sample.imports Sample3.getNowhere
           Sample.store).
  vm_compute. left.
Defined.

(** The sample POST succeeds after its eight calls. *)
Lemma created_response_follows_calls_witness :
  exists resp,
    outcome (run Sample.env
               (postClientHandler Sample.imports Sample2.postRequest)
               Sample.store) = inr resp /\
    length (trace (run Sample.env
                     (postClientHandler Sample.imports Sample2.postRequest)
                     Sample.store)) = 8%nat.
Proof.
  eexists. split; [reflexivity |].
  destruct (created_response_follows_calls Sample.env Sample.imports
              Sample2.postRequest Sample.store _ eq_refl)
    as (auth & org & clientName & o & bytes & h & row & role & rows
        & _ & _ & Htrace & _).
  rewrite Htrace. reflexivity.
Defined.

(** A body for another resource type is turned down before org-3 is
    even looked up. *)
Lemma invalid_body_is_rejected_first_witness :
  run Sample.env (postClientHandler Sample.imports Sample3.postWrongType)
    Sample.store
  = {| outcome := inl (InvalidBodyError Sample.imports Sample3.wrongTypeBody);
       world := Sample.store; trace := [] |}.
Proof.
  apply (invalid_body_is_rejected_first Sample.env Sample.imports
           Sample3.postWrongType Sample.caller "org-3" Sample.store).
  - repeat split. discriminate.
  - intros clientName [Htype _]. vm_compute in Htype. discriminate Htype.
Defined.

(** With a data layer that refuses role rows the client row still gets
    saved. *)
Lemma refused_role_save_leaves_client_witness :
  outcome (run Sample3.envRefusingRoles
             (postClientHandler Sample.imports Sample2.postRequest)
             Sample.store)
  = inl Sample3.unavailable /\
  exists p row,
    persistedClients
      (trace (run Sample3.envRefusingRoles
                (postClientHandler Sample.imports Sample2.postRequest)
                Sample.store))
    = [(p, row)].
Proof.
  destruct (refused_role_save_leaves_client Sample3.envRefusingRoles
              Sample.imports Sample.store
              (answered
                 (IoSaveClientRole
                    {| Payload.clientId := "org-1/reporting";
                       Payload.roleId := EXTERNAL |} Sample.caller)
                 (inl Sample3.unavailable))
              Sample3.unavailable eq_refl eq_refl)
    as [_ Hpost].
  destruct (Hpost Sample2.postRequest) as (Hout & _ & Hrow).
  - vm_compute. do 6 right. left.
  - split; assumption.
Defined.

(** The secret of the sample client: 64 hexadecimal digits. *)
Lemma secret_is_hex_of_draw_witness :
  exists created,
    outcome (run Sample.env (createClient Sample2.newClient Sample.caller)
               Sample.store) = inr created /\
    String.length (secret created) = 64%nat /\
    allHexDigits (secret created) = true.
Proof.
  eexists. split; [reflexivity |].
  destruct (secret_is_hex_of_draw Sample.Store Sample.env Sample2.newClient
              Sample.caller Sample.store _ eq_refl)
    as (bytes & _ & _ & Hhex & _).
  split; [reflexivity | exact Hhex].
Defined.

(** GET /accounts/v1/users is taken by one endpoint. *)
Lemma endpoints_are_disjoint_witness : Sample3.getUsers = Sample3.getUsers.
Proof.
  apply (endpoints_are_disjoint
           (Sample.request "GET" "/accounts/v1/users" [] [] JS.Undefined None)).
  - unfold Accounts.endpoints, Sample3.getUsers. do 4 right. left.
  - unfold Accounts.endpoints, Sample3.getUsers. do 4 right. left.
  - reflexivity.
  - reflexivity.
Defined.

(** A request for another service goes on untouched. *)
Lemma outside_prefix_passes_on_witness :
  Router.dispatch Sample2.handlers Sample2.json Accounts.register
    (Sample.request "GET" "/exchange/v1/orders" [] [] JS.Undefined None)
  = (Router.PassedOn
       (Sample.request "GET" "/exchange/v1/orders" [] [] JS.Undefined None),
     []).
Proof.
  apply (outside_prefix_passes_on Sample2.handlers Sample2.json).
  reflexivity.
Defined.


(** A PATCH of a membership reaches its handler even as text/plain. *)
Lemma unparsed_endpoints_witness :
  Accounts.runChain Sample2.handlers Sample2.json
    (Accounts.chain Sample3.patchMembership)
    (Sample.request "PATCH" "/accounts/v1/org-memberships/m1" []
       [("content-type", "text/plain")] JS.Undefined None)
  = (Accounts.Sent 200 JS.Null,
     Sample.request "PATCH" "/accounts/v1/org-memberships/m1" []
       [("content-type", "text/plain")] JS.Undefined None,
     [Accounts.OrgMemberships_patchOrgMembershipHandler]).
Proof.
  destruct (unparsed_endpoints Sample2.handlers Sample2.json
              (Sample.request "PATCH" "/accounts/v1/org-memberships/m1" []
                 [("content-type", "text/plain")] JS.Undefined None)
              Sample3.patchMembership)
    as (_ & h & Hchain & Hrun).
  - unfold Accounts.endpoints, Sample3.patchMembership. do 13 right. left.
  - reflexivity.
  - injection Hchain as <-. exact Hrun.
Defined.

(** A charset after the media type is enough to be turned down. *)
Lemma content_type_parameters_rejected_witness :
  Accounts.runChain Sample2.handlers Sample2.json
    (Accounts.chain Sample3.loginEmailRoute)
    (Sample2.loginEmail [("content-type", "application/json; charset=utf-8")]
       (JS.Obj [("email", JS.Str "a@b.com")]))
  = (Accounts.NextErr
       (Accounts.unsupportedMediaType
          (Some ("application/json" ++ "; charset=utf-8"))),
     Sample2.loginEmail [("content-type", "application/json; charset=utf-8")]
       (JS.Obj [("email", JS.Str "a@b.com")]),
     []).
Proof.
  apply (content_type_parameters_rejected Sample2.handlers Sample2.json).
  - unfold Accounts.register, Accounts.endpoints, Sample3.loginEmailRoute.
    simpl. do 17 right. left.
  - reflexivity.
  - reflexivity.
  - reflexivity.
  - discriminate.
Defined.


(** A login body with an email in it reaches the handler. *)
Lemma parseBody_hands_over_filled_bodies_witness :
  Accounts.runChain Sample2.handlers Sample2.json
    [Accounts.ParseBody;
     Accounts.Handle Accounts.Sessions_handlePostSessionsLoginEmail]
    (Sample2.loginEmail [("content-type", "application/json")]
       (JS.Obj [("email", JS.Str "a@b.com")]))
  = (Accounts.Sent 200 JS.Null,
     Accounts.withBody
       (Sample2.loginEmail [("content-type", "application/json")]
          (JS.Obj [("email", JS.Str "a@b.com")]))
       (JS.Obj [("email", JS.Str "a@b.com")]),
     [Accounts.Sessions_handlePostSessionsLoginEmail]).
Proof.
  destruct (parseBody_hands_over_filled_bodies Sample2.handlers Sample2.json
              (Sample2.loginEmail [("content-type", "application/json")]
                 (JS.Obj [("email", JS.Str "a@b.com")]))
              Accounts.Sessions_handlePostSessionsLoginEmail
              (JS.Obj [("email", JS.Str "a@b.com")]))
    as (_ & Hrun & _).
  - exists "application/json". split; reflexivity.
  - reflexivity.
  - exact Hrun.
Defined.



(** Roles a client carries going in are gone coming out. *)
Lemma addRoles_overwrites_witness :
  run Sample.env (addRoles false Sample3.listedClient) Sample.store
  = run Sample.env
      (addRoles false (dbToApi Sample.imports Sample.foreignClient))
      Sample.store.
Proof.
  destruct (addRoles_overwrites Sample.Store Sample.env Sample.store)
    as (Hone & _).
  apply Hone. repeat split.
Defined.
